(** * Verification of the Safari WebDriver protocol client

    A shallow embedding of [internal/browser/selectors.go],
    [internal/browser/webdriver.go], the image comparison functions
    (CompareImages, PixelDifferenceCount, scaleImage, CreateDiffImage)
    and the callers of the client in [internal/browser/locator.go] and
    [internal/browser/browser.go], followed by the properties
    established about them.

    Conventions of the embedding.
    - A Go [string] is a [string] (a sequence of bytes).
    - A Go [error] is a value of type [error]; the nil error is [None].
    - A function returning [(T, error)] returns a [result T].
    - Methods of [*WebDriverClient] that perform I/O take the [World]
      (clock, requests sent so far, log output) and return the new one.
    - A [float64] is an exact rational ([Q]); rounding is not modelled.
    - A [context.Context] is not a parameter: a cancelled context shows
      as an error of the transport.
    - [json.Marshal] cannot fail on the payloads built here (strings,
      ints and decoded JSON values), so its error branches are left out. *)

From Stdlib Require Import String Ascii ZArith NArith QArith Qminmax List Lia Bool.
From Stdlib Require Import Strings.Byte.
Import ListNotations.

Set Warnings "-register-all".

Open Scope string_scope.
Open Scope Z_scope.

(* ================================================================== *)
(** * Go standard library helpers *)
(* ================================================================== *)

Module Go.

(** The double quote, the backslash and the newline, as one-character
    strings. *)
Definition dq : string := String "034"%char EmptyString.
Definition bs : string := String "092"%char EmptyString.
Definition nl : string := String "010"%char EmptyString.

(** [strings.HasPrefix(s, prefix)]. *)
Definition HasPrefix (s prefix : string) : bool := String.prefix prefix s.

(** The suffix of [s] that starts at byte [n]. *)
Fixpoint drop (n : nat) (s : string) : string :=
  match n, s with
  | O, _ => s
  | S n', String _ s' => drop n' s'
  | S _, EmptyString => EmptyString
  end.

(** [strings.TrimPrefix(s, prefix)]. *)
Definition TrimPrefix (s prefix : string) : string :=
  if HasPrefix s prefix then drop (String.length prefix) s else s.

(** [strings.ReplaceAll(s, old, new)] for a one-byte [old]. *)
Fixpoint ReplaceAll (s : string) (old : ascii) (new : string) : string :=
  match s with
  | EmptyString => EmptyString
  | String c s' =>
      if Ascii.eqb c old then new ++ ReplaceAll s' old new
      else String c (ReplaceAll s' old new)
  end.

(** [fmt.Sprintf(format, args...)] for formats whose only verb is [%s]
    and string operands.  A verb without operand prints as Go does. *)
Fixpoint Sprintf (format : string) (args : list string) : string :=
  match format with
  | EmptyString => EmptyString
  | String "%"%char (String "s"%char rest) =>
      match args with
      | a :: args' => a ++ Sprintf rest args'
      | [] => "%!s(MISSING)" ++ Sprintf rest []
      end
  | String c rest => String c (Sprintf rest args)
  end.

(** Go's loop [for i := lo; i < hi; i++]: the values [i] takes. *)
Definition range (lo hi : Z) : list Z :=
  map (fun k => lo + Z.of_nat k) (seq 0 (Z.to_nat (hi - lo))).

(** Conversion to [int32], two's complement wrap-around. *)
Definition int32 (x : Z) : Z := (x + 2147483648) mod 4294967296 - 2147483648.

(** Conversion to [uint8]. *)
Definition uint8 (x : Z) : Z := x mod 256.

End Go.

Import Go.

(* ================================================================== *)
(** * Dynamic values and errors *)
(* ================================================================== *)

(** A decoded JSON document, as [encoding/json] stores it in an
    [interface{}]: nil, bool, float64, string, []interface{} or
    map[string]interface{}.  An object is kept as its members in document
    order; see [lookup] for how a key is resolved. *)
Inductive value : Type :=
| VNil
| VBool (b : bool)
| VNumber (q : Q)
| VString (s : string)
| VArray (elems : list value)
| VMap (members : list (string * value)).

(** [m[key]] on a [map[string]interface{}] decoded from [members]: a later
    member overwrites an earlier one with the same key. *)
Fixpoint lookup (members : list (string * value)) (key : string) : option value :=
  match members with
  | [] => None
  | (k, v) :: rest =>
      match lookup rest key with
      | Some v' => Some v'
      | None => if String.eqb k key then Some v else None
      end
  end.

(** Operands of a formatting call. *)
Inductive operand : Type :=
| OStr (s : string)
| OFloat (f : Q)
| OInt (n : Z)
| OVal (v : value)
| OErr (e : error)

(** An [error]: built by [fmt.Errorf] (kept as the format and its
    operands), or produced by a package outside this repository
    (net/http, net/url, encoding/json, encoding/base64, image/png). *)
with error : Type :=
| Errorf (format : string) (args : list operand)
| External (msg : string).

Inductive result (T : Type) : Type :=
| Ok (v : T)
| Err (e : error).
Arguments Ok {T} v.
Arguments Err {T} e.

(* ================================================================== *)
(** * selectors.go: strategies and ParseSelector *)
(* ================================================================== *)

(** [type SelectorStrategy string]. *)
Definition SelectorStrategy := string.

(** Native WebDriver strategies. *)
Definition StrategyCSSSelector : SelectorStrategy := "css selector".
Definition StrategyXPath : SelectorStrategy := "xpath".
Definition StrategyLinkText : SelectorStrategy := "link text".
Definition StrategyPartialLinkText : SelectorStrategy := "partial link text".
Definition StrategyID : SelectorStrategy := "id".
Definition StrategyClassName : SelectorStrategy := "class name".
Definition StrategyTagName : SelectorStrategy := "tag name".

(** Custom JavaScript-based strategies. *)
Definition StrategyText : SelectorStrategy := "text".
Definition StrategyDataTestID : SelectorStrategy := "data-testid".
Definition StrategyAriaLabel : SelectorStrategy := "aria-label".
Definition StrategyRole : SelectorStrategy := "role".
Definition StrategyVisibleText : SelectorStrategy := "visible-text".

Record ParsedSelector : Type := mkParsed {
  Strategy : SelectorStrategy;
  Value : string;
  IsNative : bool
}.

Definition ParseSelector (selector : string) : ParsedSelector :=
  if HasPrefix selector "xpath=" then
    mkParsed StrategyXPath (TrimPrefix selector "xpath=") true
  else if HasPrefix selector "//" || HasPrefix selector "(//" then
    mkParsed StrategyXPath selector true
  else if HasPrefix selector "text=" then
    mkParsed StrategyText (TrimPrefix selector "text=") false
  else if HasPrefix selector "visible-text=" then
    mkParsed StrategyVisibleText (TrimPrefix selector "visible-text=") false
  else if HasPrefix selector "id=" then
    mkParsed StrategyID (TrimPrefix selector "id=") true
  else if HasPrefix selector "class=" then
    mkParsed StrategyClassName (TrimPrefix selector "class=") true
  else if HasPrefix selector "tag=" then
    mkParsed StrategyTagName (TrimPrefix selector "tag=") true
  else if HasPrefix selector "link=" then
    mkParsed StrategyLinkText (TrimPrefix selector "link=") true
  else if HasPrefix selector "partial-link=" then
    mkParsed StrategyPartialLinkText (TrimPrefix selector "partial-link=") true
  else if HasPrefix selector "data-testid=" then
    mkParsed StrategyDataTestID (TrimPrefix selector "data-testid=") false
  else if HasPrefix selector "aria-label=" then
    mkParsed StrategyAriaLabel (TrimPrefix selector "aria-label=") false
  else if HasPrefix selector "role=" then
    mkParsed StrategyRole (TrimPrefix selector "role=") false
  else
    mkParsed StrategyCSSSelector selector true.

(** The prefix table as the specification words it: an ordered list of
    rows, each with its literal prefixes, the strategy, the native flag
    and whether the prefix is stripped from the value. *)
Record PrefixRow : Type := mkRow {
  row_prefixes : list string;
  row_strategy : SelectorStrategy;
  row_native : bool;
  row_strip : bool
}.

Definition prefix_table : list PrefixRow :=
  [ mkRow ["xpath="] StrategyXPath true true;
    mkRow ["//"; "(//"] StrategyXPath true false;
    mkRow ["text="] StrategyText false true;
    mkRow ["visible-text="] StrategyVisibleText false true;
    mkRow ["id="] StrategyID true true;
    mkRow ["class="] StrategyClassName true true;
    mkRow ["tag="] StrategyTagName true true;
    mkRow ["link="] StrategyLinkText true true;
    mkRow ["partial-link="] StrategyPartialLinkText true true;
    mkRow ["data-testid="] StrategyDataTestID false true;
    mkRow ["aria-label="] StrategyAriaLabel false true;
    mkRow ["role="] StrategyRole false true ].

(** The prefix of [row] that [selector] starts with, if any. *)
Definition row_match (selector : string) (row : PrefixRow) : option string :=
  find (fun p => HasPrefix selector p) (row_prefixes row).

(** The specification's reading of the table: the first row with a
    matching prefix decides; no row means CSS selector, native. *)
Fixpoint resolve_by_table (table : list PrefixRow) (selector : string) : ParsedSelector :=
  match table with
  | [] => mkParsed StrategyCSSSelector selector true
  | row :: rows =>
      match row_match selector row with
      | Some p =>
          mkParsed (row_strategy row)
                   (if row_strip row then drop (String.length p) selector else selector)
                   (row_native row)
      | None => resolve_by_table rows selector
      end
  end.

(* ================================================================== *)
(** * selectors.go: script generation *)
(* ================================================================== *)

(** generateSelectorScript generates JavaScript code for custom selector
    strategies (single result). *)
Definition generateSelectorScript (strategy : SelectorStrategy) (value : string) : string :=
  let escapedValue := ReplaceAll value "034"%char (bs ++ dq) in
  if String.eqb strategy StrategyText then
    Sprintf ("
			// Find the most specific (deepest) element with exact matching text
			var elements = Array.from(document.querySelectorAll('*'));
			var matches = elements.filter(function(el) {
				// Get only the direct text content (not from children)
				var directText = Array.from(el.childNodes)
					.filter(function(node) { return node.nodeType === 3; })
					.map(function(node) { return node.textContent; })
					.join('').trim();
				return directText === " ++ dq ++ "%s" ++ dq ++ " || el.textContent.trim() === " ++ dq ++ "%s" ++ dq ++ ";
			});
			// Return the deepest (most specific) match
			if (matches.length > 0) {
				return matches[matches.length - 1];
			}
			return null;
		") [escapedValue; escapedValue]
  else if String.eqb strategy StrategyVisibleText then
    Sprintf ("
			// Find the most specific visible element containing the text
			var elements = Array.from(document.querySelectorAll('*'));
			var matches = elements.filter(function(el) {
				// Check visibility
				if (el.offsetWidth === 0 || el.offsetHeight === 0) return false;
				var style = window.getComputedStyle(el);
				if (style.display === 'none' || style.visibility === 'hidden') return false;
				
				// Check text content
				var text = el.textContent ? el.textContent.trim() : '';
				return text.includes(" ++ dq ++ "%s" ++ dq ++ ");
			});
			
			// Return the smallest (most specific) element
			// Sort by total descendants count (fewer = more specific)
			matches.sort(function(a, b) {
				return a.getElementsByTagName('*').length - b.getElementsByTagName('*').length;
			});
			
			return matches.length > 0 ? matches[0] : null;
		") [escapedValue]
  else if String.eqb strategy StrategyDataTestID then
    Sprintf ("return document.querySelector('[data-testid=" ++ dq ++ "%s" ++ dq ++ "]');") [escapedValue]
  else if String.eqb strategy StrategyAriaLabel then
    Sprintf ("return document.querySelector('[aria-label=" ++ dq ++ "%s" ++ dq ++ "]');") [escapedValue]
  else if String.eqb strategy StrategyRole then
    Sprintf ("return document.querySelector('[role=" ++ dq ++ "%s" ++ dq ++ "]');") [escapedValue]
  else
    Sprintf ("return document.querySelector(" ++ dq ++ "%s" ++ dq ++ ");") [escapedValue].

(** generateAllSelectorScript generates JavaScript code to find all
    elements. *)
Definition generateAllSelectorScript (strategy : SelectorStrategy) (value : string) : string :=
  let escapedValue := ReplaceAll value "034"%char (bs ++ dq) in
  if String.eqb strategy StrategyText then
    Sprintf ("
			var elements = Array.from(document.querySelectorAll('*'));
			return elements.filter(function(el) {
				var directText = Array.from(el.childNodes)
					.filter(function(node) { return node.nodeType === 3; })
					.map(function(node) { return node.textContent; })
					.join('').trim();
				return directText === " ++ dq ++ "%s" ++ dq ++ " || el.textContent.trim() === " ++ dq ++ "%s" ++ dq ++ ";
			});
		") [escapedValue; escapedValue]
  else if String.eqb strategy StrategyVisibleText then
    Sprintf ("
			var elements = Array.from(document.querySelectorAll('*'));
			return elements.filter(function(el) {
				if (el.offsetWidth === 0 || el.offsetHeight === 0) return false;
				var style = window.getComputedStyle(el);
				if (style.display === 'none' || style.visibility === 'hidden') return false;
				var text = el.textContent ? el.textContent.trim() : '';
				return text.includes(" ++ dq ++ "%s" ++ dq ++ ");
			});
		") [escapedValue]
  else if String.eqb strategy StrategyDataTestID then
    Sprintf ("return Array.from(document.querySelectorAll('[data-testid=" ++ dq ++ "%s" ++ dq ++ "]'));") [escapedValue]
  else if String.eqb strategy StrategyAriaLabel then
    Sprintf ("return Array.from(document.querySelectorAll('[aria-label=" ++ dq ++ "%s" ++ dq ++ "]'));") [escapedValue]
  else if String.eqb strategy StrategyRole then
    Sprintf ("return Array.from(document.querySelectorAll('[role=" ++ dq ++ "%s" ++ dq ++ "]'));") [escapedValue]
  else
    Sprintf ("return Array.from(document.querySelectorAll(" ++ dq ++ "%s" ++ dq ++ "));") [escapedValue].

(* ================================================================== *)
(** * webdriver.go: generateWaitScript *)
(* ================================================================== *)

(** The element finding expression of generateWaitScript. *)
Definition findElementScript (parsed : ParsedSelector) : string :=
  if IsNative parsed then
    if String.eqb (Strategy parsed) StrategyCSSSelector then
      Sprintf ("document.querySelector(" ++ dq ++ "%s" ++ dq ++ ")")
              [ReplaceAll (Value parsed) "034"%char (bs ++ dq)]
    else if String.eqb (Strategy parsed) StrategyXPath then
      let escapedXPath := ReplaceAll (Value parsed) "039"%char (bs ++ "'") in
      Sprintf ("document.evaluate('%s', document, null, XPathResult.FIRST_ORDERED_NODE_TYPE, null).singleNodeValue") [escapedXPath]
    else
      Sprintf ("(%s)") [generateSelectorScript (Strategy parsed) (Value parsed)]
  else
    Sprintf ("(%s)") [generateSelectorScript (Strategy parsed) (Value parsed)].

(** generateWaitScript generates JavaScript to check element state. *)
Definition generateWaitScript (selector state : string) : string :=
  let parsed := ParseSelector selector in
  let findElementScript := findElementScript parsed in
  if String.eqb state "attached" then
    Sprintf ("
			var element = %s;
			return element !== null && element !== undefined;
		") [findElementScript]
  else if String.eqb state "detached" then
    Sprintf ("
			var element = %s;
			return element === null || element === undefined;
		") [findElementScript]
  else if String.eqb state "visible" then
    Sprintf ("
			var element = %s;
			if (!element) return false;
			if (element.offsetWidth === 0 || element.offsetHeight === 0) return false;
			var style = window.getComputedStyle(element);
			return style.display !== 'none' && style.visibility !== 'hidden' && style.opacity !== '0';
		") [findElementScript]
  else if String.eqb state "hidden" then
    Sprintf ("
			var element = %s;
			if (!element) return true;
			if (element.offsetWidth === 0 || element.offsetHeight === 0) return true;
			var style = window.getComputedStyle(element);
			return style.display === 'none' || style.visibility === 'hidden' || style.opacity === '0';
		") [findElementScript]
  else
    Sprintf ("
			var element = %s;
			if (!element) return false;
			if (element.offsetWidth === 0 || element.offsetHeight === 0) return false;
			var style = window.getComputedStyle(element);
			return style.display !== 'none' && style.visibility !== 'hidden';
		") [findElementScript].

(* ================================================================== *)
(** * Raster images (Go's image and image/color packages) *)
(* ================================================================== *)

(** [image.Rectangle]: the points with [MinX <= x < MaxX], [MinY <= y < MaxY]. *)
Record Rectangle : Type := Rect {
  MinX : Z;
  MinY : Z;
  MaxX : Z;
  MaxY : Z
}.

Definition Dx (r : Rectangle) : Z := MaxX r - MinX r.
Definition Dy (r : Rectangle) : Z := MaxY r - MinY r.

Definition inRect (r : Rectangle) (x y : Z) : bool :=
  (MinX r <=? x) && (x <? MaxX r) && (MinY r <=? y) && (y <? MaxY r).

(** The colour types [png.Decode] and [image.RGBA] produce.  The 8-bit
    types hold channels in 0..255, the 16-bit ones in 0..65535. *)
Inductive Color : Type :=
| RGBA (r g b a : Z)      (* color.RGBA: 8-bit, alpha-premultiplied *)
| NRGBA (r g b a : Z)     (* color.NRGBA: 8-bit, not premultiplied *)
| RGBA64 (r g b a : Z)    (* color.RGBA64 *)
| NRGBA64 (r g b a : Z)   (* color.NRGBA64 *)
| Gray (y : Z)            (* color.Gray *)
| Gray16 (y : Z).         (* color.Gray16 *)

(** The four 16-bit alpha-premultiplied channels, [r, g, b, a]. *)
Definition Channels : Type := (Z * Z * Z * Z)%type.

(** The method [Color.RGBA()] of each colour type. *)
Definition Color_RGBA (c : Color) : Channels :=
  match c with
  | RGBA r g b a =>
      (Z.lor r (Z.shiftl r 8), Z.lor g (Z.shiftl g 8),
       Z.lor b (Z.shiftl b 8), Z.lor a (Z.shiftl a 8))
  | NRGBA r g b a =>
      (Z.lor r (Z.shiftl r 8) * a / 255, Z.lor g (Z.shiftl g 8) * a / 255,
       Z.lor b (Z.shiftl b 8) * a / 255, Z.lor a (Z.shiftl a 8))
  | RGBA64 r g b a => (r, g, b, a)
  | NRGBA64 r g b a => (r * a / 65535, g * a / 65535, b * a / 65535, a)
  | Gray y => let y16 := Z.lor y (Z.shiftl y 8) in (y16, y16, y16, 65535)
  | Gray16 y => (y, y, y, 65535)
  end.

(** [color.RGBAModel.Convert]: what the Set method of image.RGBA stores. *)
Definition RGBAModel (c : Color) : Color :=
  match c with
  | RGBA _ _ _ _ => c
  | _ =>
      let '(r, g, b, a) := Color_RGBA c in
      RGBA (uint8 (Z.shiftr r 8)) (uint8 (Z.shiftr g 8))
           (uint8 (Z.shiftr b 8)) (uint8 (Z.shiftr a 8))
  end.

(** An [image.Image]: its bounds and the colour at each point. *)
Record Image : Type := mkImage {
  Bounds : Rectangle;
  At : Z -> Z -> Color
}.

(** [image.NewRGBA(r)]: every pixel is the zero colour. *)
Definition NewRGBA (r : Rectangle) : Image :=
  mkImage r (fun _ _ => RGBA 0 0 0 0).

(** The Set method of image.RGBA, [img.Set(x, y, c)]: nothing happens
    outside the bounds. *)
Definition Set_ (img : Image) (x y : Z) (c : Color) : Image :=
  if inRect (Bounds img) x y then
    mkImage (Bounds img)
            (fun x' y' => if (x' =? x) && (y' =? y) then RGBAModel c else At img x' y')
  else img.

(** [for i := lo; i < hi; i++ { s = body(i, s) }]. *)
Definition for_ {S : Type} (lo hi : Z) (body : Z -> S -> S) (s : S) : S :=
  fold_left (fun acc i => body i acc) (range lo hi) s.

(** [int(f)] for a float64 [f]: truncation toward zero. *)
Definition int_of_float (f : Q) : Z := Z.quot (Qnum f) (Z.pos (Qden f)).

(** [float64(n)] for an int [n]. *)
Definition float64 (n : Z) : Q := inject_Z n.

(* ================================================================== *)
(** * Image comparison: scaleImage, CompareImages, PixelDifferenceCount *)
(* ================================================================== *)

(** scaleImage scales an image to the target width and height using
    nearest neighbor. *)
Definition scaleImage (src : Image) (targetWidth targetHeight : Z) : Image :=
  let srcBounds := Bounds src in
  let srcWidth := Dx srcBounds in
  let srcHeight := Dy srcBounds in
  let dst := NewRGBA (Rect 0 0 targetWidth targetHeight) in
  let xRatio := (float64 srcWidth / float64 targetWidth)%Q in
  let yRatio := (float64 srcHeight / float64 targetHeight)%Q in
  for_ 0 targetHeight (fun y dst =>
    for_ 0 targetWidth (fun x dst =>
      let srcX := int_of_float (float64 x * xRatio)%Q in
      let srcY := int_of_float (float64 y * yRatio)%Q in
      Set_ dst x y (At src (MinX srcBounds + srcX) (MinY srcBounds + srcY)))
    dst)
  dst.

(** The dimension check shared by CompareImages, PixelDifferenceCount and
    CreateDiffImage: if the dimensions differ, the image that is wider or
    taller is scaled to the other's dimensions. *)
Definition matchDimensions (img1 img2 : Image) : Image * Image :=
  let bounds1 := Bounds img1 in
  let bounds2 := Bounds img2 in
  if negb (Dx bounds1 =? Dx bounds2) || negb (Dy bounds1 =? Dy bounds2) then
    if (Dx bounds1 >? Dx bounds2) || (Dy bounds1 >? Dy bounds2) then
      (scaleImage img1 (Dx bounds2) (Dy bounds2), img2)
    else
      (img1, scaleImage img2 (Dx bounds1) (Dy bounds1))
  else (img1, img2).

(** The squared error of one pixel pair, summed over the four channels
    taken at 8-bit precision. *)
Definition pixelError (c1 c2 : Color) : Q :=
  let '(r1, g1, b1, a1) := Color_RGBA c1 in
  let '(r2, g2, b2, a2) := Color_RGBA c2 in
  let dr := (float64 (Z.shiftr r1 8) - float64 (Z.shiftr r2 8))%Q in
  let dg := (float64 (Z.shiftr g1 8) - float64 (Z.shiftr g2 8))%Q in
  let db := (float64 (Z.shiftr b1 8) - float64 (Z.shiftr b2 8))%Q in
  let da := (float64 (Z.shiftr a1 8) - float64 (Z.shiftr a2 8))%Q in
  (dr * dr + dg * dg + db * db + da * da)%Q.

(** The accumulation loop of CompareImages. *)
Definition totalError (img1 img2 : Image) : Q :=
  let bounds1 := Bounds img1 in
  for_ (MinY bounds1) (MaxY bounds1) (fun y total =>
    for_ (MinX bounds1) (MaxX bounds1) (fun x total =>
      (total + pixelError (At img1 x y) (At img2 x y))%Q)
    total)
  0%Q.

(** CompareImages after both images are decoded. *)
Definition similarity (img1 img2 : Image) : Q :=
  let '(img1, img2) := matchDimensions img1 img2 in
  let bounds1 := Bounds img1 in
  let pixelCount := Dx bounds1 * Dy bounds1 in
  let mse := (totalError img1 img2 / float64 (pixelCount * 4))%Q in
  let maxMSE := (255 * 255)%Q in
  (1 - Qmin (mse / maxMSE) 1)%Q.

Definition abs32 (n : Z) : Z := if n <? 0 then int32 (- n) else n.

(** Whether PixelDifferenceCount counts a pixel pair. *)
Definition pixelDiffers (c1 c2 : Color) (threshold : Z) : bool :=
  let '(r1, g1, b1, a1) := Color_RGBA c1 in
  let '(r2, g2, b2, a2) := Color_RGBA c2 in
  let dr := int32 (int32 r1 - int32 r2) in
  let dg := int32 (int32 g1 - int32 g2) in
  let db := int32 (int32 b1 - int32 b2) in
  let da := int32 (int32 a1 - int32 a2) in
  (abs32 dr >? int32 threshold) ||
  (abs32 dg >? int32 threshold) ||
  (abs32 db >? int32 threshold) ||
  (abs32 da >? int32 threshold).

(** PixelDifferenceCount after both images are decoded. *)
Definition differentPixels (img1 img2 : Image) (threshold : Z) : Z :=
  let '(img1, img2) := matchDimensions img1 img2 in
  let bounds1 := Bounds img1 in
  for_ (MinY bounds1) (MaxY bounds1) (fun y count =>
    for_ (MinX bounds1) (MaxX bounds1) (fun x count =>
      if pixelDiffers (At img1 x y) (At img2 x y) threshold
      then count + 1 else count)
    count)
  0.

(** The codecs of Go's standard library the package calls. *)
Class Codec : Type := {
  png_Decode : list byte -> result Image;
  png_Encode : Image -> result (list byte);
  base64_DecodeString : string -> result (list byte)
}.

Section ImageCompare.
Context {codec : Codec}.

(** CompareImages compares two image byte arrays and returns a similarity
    score. *)
Definition CompareImages (img1Bytes img2Bytes : list byte) : result Q :=
  match png_Decode img1Bytes with
  | Err err => Err (Errorf "failed to decode first image: %w" [OErr err])
  | Ok img1 =>
      match png_Decode img2Bytes with
      | Err err => Err (Errorf "failed to decode second image: %w" [OErr err])
      | Ok img2 => Ok (similarity img1 img2)
      end
  end.

(** PixelDifferenceCount counts how many pixels are different between two
    images. *)
Definition PixelDifferenceCount (img1Bytes img2Bytes : list byte) (threshold : Z) : result Z :=
  match png_Decode img1Bytes with
  | Err err => Err (Errorf "failed to decode first image: %w" [OErr err])
  | Ok img1 =>
      match png_Decode img2Bytes with
      | Err err => Err (Errorf "failed to decode second image: %w" [OErr err])
      | Ok img2 => Ok (differentPixels img1 img2 threshold)
      end
  end.

End ImageCompare.

(* ================================================================== *)
(** * The HTTP transport and the outside world *)
(* ================================================================== *)

(** An [http.Request] as the client builds it.  The body is the JSON
    document that [json.Marshal] produced (object keys in sorted order). *)
Record Request : Type := mkRequest {
  Method : string;
  URL : string;
  ContentType : option string;
  Payload : option value
}.

(** An [http.Response]: status code and the body read as JSON ([None]
    when the body is not a JSON document). *)
Record Response : Type := mkResponse {
  StatusCode : Z;
  Body : option value
}.

(** A line written by the log package or to standard output. *)
Inductive output : Type :=
| LogPrintln (msg : string)
| LogPrintf (format : string) (args : list operand)
| FmtPrintln (args : list operand).

(** What the operations observe and change outside the client: the clock
    (nanoseconds), the requests handed to the transport so far, and the
    lines printed. *)
Record World : Type := mkWorld {
  now : N;
  sent : list Request;
  printed : list output
}.

(** The transport's answer to one request: the time it took and either a
    transport error or a response. *)
Record Reply : Type := mkReply {
  elapsed : N;
  answer : result Response
}.

(** The network as the client sees it: [http.Client.Do] is [roundTrip]
    (the remote endpoint may answer by the history), and
    [http.NewRequestWithContext] fails when [requestError] says so. *)
Class Net : Type := {
  roundTrip : World -> Request -> Reply;
  requestError : string -> string -> option error
}.

Definition Millisecond : N := 1000000%N.
Definition Second : N := (1000 * Millisecond)%N.

Definition Sleep (d : N) (w : World) : World :=
  mkWorld (now w + d)%N (sent w) (printed w).

Definition print (line : output) (w : World) : World :=
  mkWorld (now w) (sent w) (printed w ++ [line]).

Section Transport.
Context {net : Net}.

Definition NewRequestWithContext (method url : string) (body : option value) : result Request :=
  match requestError method url with
  | Some err => Err err
  | None => Ok (mkRequest method url None body)
  end.

(** [req.Header.Set] of the Content-Type header. *)
Definition SetContentType (req : Request) (v : string) : Request :=
  mkRequest (Method req) (URL req) (Some v) (Payload req).

(** [c.httpClient.Do(req)]: the request is recorded as sent. *)
Definition Do (req : Request) (w : World) : result Response * World :=
  let reply := roundTrip w req in
  (answer reply, mkWorld (now w + elapsed reply)%N (sent w ++ [req]) (printed w)).

End Transport.

(* ================================================================== *)
(** * Decoding response bodies (encoding/json) *)
(* ================================================================== *)

(** The error of a failed [Decode]. *)
Definition json_error : error := External "encoding/json: cannot decode".

Definition upper (c : ascii) : ascii :=
  let n := nat_of_ascii c in
  if ((97 <=? n) && (n <=? 122))%nat then ascii_of_nat (n - 32) else c.

Fixpoint foldName (s : string) : string :=
  match s with
  | EmptyString => EmptyString
  | String c s' => String (upper c) (foldName s')
  end.

(** Whether the object key [key] addresses the struct field tagged
    [name]: encoding/json compares them without regard to ASCII case.
    (Its folding of non-ASCII letters only concerns the letters k and s,
    which no field name below contains.) *)
Definition fieldMatch (name key : string) : bool :=
  String.eqb (foldName key) (foldName name).

(** Decoding every member of an object that addresses the field [name]
    into a variable holding [cur], in document order; [None] is a decode
    error. *)
Fixpoint into_field {T : Type} (into : value -> T -> option T) (name : string)
    (members : list (string * value)) (cur : T) : option T :=
  match members with
  | [] => Some cur
  | (k, v) :: rest =>
      if fieldMatch name k then
        match into v cur with
        | Some cur' => into_field into name rest cur'
        | None => None
        end
      else into_field into name rest cur
  end.

(** Into a [string]: JSON null leaves the variable unchanged. *)
Definition into_string (v : value) (cur : string) : option string :=
  match v with
  | VString s => Some s
  | VNil => Some cur
  | _ => None
  end.

(** Into an [interface{}]. *)
Definition into_any (v : value) (cur : value) : option value := Some v.

(** Into a [map[string]interface{}]. *)
Definition into_map (v : value) (cur : list (string * value)) : option (list (string * value)) :=
  match v with
  | VMap members => Some (cur ++ members)%list
  | VNil => Some cur
  | _ => None
  end.

(** Into a slice whose elements start from [zero]. *)
Definition into_slice {T : Type} (into : value -> T -> option T) (zero : T)
    (v : value) (cur : list T) : option (list T) :=
  match v with
  | VArray elems =>
      fold_right (fun e acc =>
                    match into e zero, acc with
                    | Some t, Some ts => Some (t :: ts)
                    | _, _ => None
                    end) (Some []) elems
  | VNil => Some []
  | _ => None
  end.

(** The element reference struct of the find responses: the W3C field
    [ElementID] (tagged with [w3cKey]) and the legacy field [ELEMENT]. *)
Record ElementRef : Type := mkElementRef {
  ElementID : string;
  ELEMENT : string
}.

Definition w3cKey : string := "element-6066-11e4-a52e-4f735466cecf".

Definition into_ElementRef (v : value) (cur : ElementRef) : option ElementRef :=
  match v with
  | VMap members =>
      match into_field into_string w3cKey members (ElementID cur),
            into_field into_string "ELEMENT" members (ELEMENT cur) with
      | Some id, Some legacy => Some (mkElementRef id legacy)
      | _, _ => None
      end
  | VNil => Some cur
  | _ => None
  end.

(** [json.NewDecoder(resp.Body).Decode(&x)] for [x] of type
    [struct { Value T }], the field tagged value; returns the field. *)
Definition decodeValue {T : Type} (into : value -> T -> option T) (zero : T)
    (body : option value) : result T :=
  match body with
  | Some (VMap members) =>
      match into_field into "value" members zero with
      | Some t => Ok t
      | None => Err json_error
      end
  | Some VNil => Ok zero
  | _ => Err json_error
  end.

(** The same for [x] of type [map[string]interface{}]. *)
Definition decodeMap (body : option value) : result (list (string * value)) :=
  match body with
  | Some (VMap members) => Ok members
  | Some VNil => Ok []
  | _ => Err json_error
  end.

(* ================================================================== *)
(** * webdriver.go: the protocol client *)
(* ================================================================== *)

(** WebDriverClient handles communication with Safari WebDriver.  Its
    [httpClient] is the [Net] instance. *)
Record WebDriverClient : Type := mkClient {
  baseURL : string;
  sessionID : string
}.

(** NavigateOptions contains options for navigation. *)
Record NavigateOptions : Type := mkNavigateOptions {
  WaitUntil : string
}.

(** A channel delivery received by the select statement of
    WaitForSelector: the timeout context is done, or the ticker fired. *)
Inductive Event : Type :=
| CtxDone
| Tick.

Section Client.
Context {net : Net} {codec : Codec}.

Definition no_active_session : error := Errorf "no active session" [].



(** DeleteSession deletes the current WebDriver session.  The client is
    returned because the method assigns its [sessionID] field. *)
Definition DeleteSession (c : WebDriverClient) (w : World)
    : option error * WebDriverClient * World :=
  if String.eqb (sessionID c) EmptyString then
    (None, c, print (LogPrintln "WARN: attempted to delete session, but no active session exists") w)
  else
  match NewRequestWithContext "DELETE" (baseURL c ++ "/session/" ++ sessionID c) None with
  | Err err =>
      (None, c, print (LogPrintf ("WARN: failed to create delete request: %v" ++ nl) [OErr err]) w)
  | Ok req =>
  match Do req w with
  | (Err err, w) =>
      (None, c, print (LogPrintf ("WARN: failed to delete session: %v" ++ nl) [OErr err]) w)
  | (Ok resp, w) =>
  if negb (StatusCode resp =? 200) then
    let w := print (LogPrintf ("WARN: session deletion failed with status: %d" ++ nl)
                              [OInt (StatusCode resp)]) w in
    (None, mkClient (baseURL c) EmptyString, w)
  else
    (None, mkClient (baseURL c) EmptyString, w)
  end end.



(** The error ExecuteScript builds from a response whose status is not
    200: the remote message when the body carries one. *)
Definition scriptStatusError (resp : Response) : error :=
  let generic := Errorf "script execution failed with status: %d" [OInt (StatusCode resp)] in
  match decodeMap (Body resp) with
  | Ok errorBody =>
      match lookup errorBody "value" with
      | Some (VMap value) =>
          match lookup value "message" with
          | Some (VString message) =>
              Errorf "script execution failed with status %d: %s"
                     [OInt (StatusCode resp); OStr message]
          | _ => generic
          end
      | _ => generic
      end
  | Err _ => generic
  end.

(** ExecuteScript executes JavaScript in the browser.  [args] is [None]
    for a nil slice. *)
Definition ExecuteScript (c : WebDriverClient) (script : string)
    (args : option (list value)) (w : World) : result value * World :=
  if String.eqb (sessionID c) EmptyString then (Err no_active_session, w) else
  let args := match args with None => [] | Some a => a end in
  let payload := VMap [("args", VArray args); ("script", VString script)] in
  match NewRequestWithContext "POST" (baseURL c ++ "/session/" ++ sessionID c ++ "/execute/sync")
                              (Some payload) with
  | Err err => (Err (Errorf "failed to create execute script request: %w" [OErr err]), w)
  | Ok req =>
  let req := SetContentType req "application/json" in
  match Do req w with
  | (Err err, w) => (Err (Errorf "failed to execute script: %w" [OErr err]), w)
  | (Ok resp, w) =>
  if negb (StatusCode resp =? 200) then (Err (scriptStatusError resp), w)
  else
  match decodeValue into_any VNil (Body resp) with
  | Err err => (Err (Errorf "failed to decode script response: %w" [OErr err]), w)
  | Ok v => (Ok v, w)
  end end end.

(** The loop of pollForCondition, [for time.Now().Before(deadline)].
    Every pass sleeps for the interval, so [fuel] passes always suffice
    when [fuel] exceeds timeout/interval; [None] means out of fuel. *)
Fixpoint pollLoop (fuel : nat) (c : WebDriverClient) (script : string)
    (interval deadline : N) (w : World) : option (option error) * World :=
  match fuel with
  | O => (None, w)
  | S fuel' =>
      if (now w <? deadline)%N then
        match ExecuteScript c script None w with
        | (Err err, w) =>
            (Some (Some (Errorf "failed to execute condition script: %w" [OErr err])), w)
        | (Ok (VBool true), w) => (Some None, w)
        | (Ok _, w) => pollLoop fuel' c script interval deadline (Sleep interval w)
        end
      else (Some (Some (Errorf "timeout waiting for condition after 30s" [])), w)
  end.

(** pollForCondition polls a JavaScript condition until it returns true
    or times out.  The loop never runs out of its 301 passes (lemma
    [pollLoop_fuel]), so the last branch is not reached. *)
Definition pollForCondition (c : WebDriverClient) (script : string) (w : World)
    : option error * World :=
  let interval := (100 * Millisecond)%N in
  let timeout := (30 * Second)%N in
  let deadline := (now w + timeout)%N in
  match pollLoop 301 c script interval deadline w with
  | (Some err, w) => (err, w)
  | (None, w) => (Some (Errorf "timeout waiting for condition after 30s" []), w)
  end.

(** waitForDOMContentLoaded waits for the document to be interactive or
    complete. *)
Definition waitForDOMContentLoaded (c : WebDriverClient) (w : World)
    : option error * World :=
  let script := "return document.readyState === 'interactive' || document.readyState === 'complete';" in
  pollForCondition c script w.

(** waitForNetworkIdle waits for network activity to settle. *)
Definition waitForNetworkIdle (c : WebDriverClient) (w : World)
    : option error * World :=
  let script := "return document.readyState === 'complete';" in
  match pollForCondition c script w with
  | (Some err, w) => (Some err, w)
  | (None, w) => (None, Sleep (500 * Millisecond)%N w)
  end.

(** Navigate navigates to a URL with optional wait conditions.
    [options] is [None] for a nil pointer.  (The source also stores the
    defaulted WaitUntil in the caller's struct.) *)
Definition Navigate (c : WebDriverClient) (url : string) (options : option NavigateOptions)
    (w : World) : option error * World :=
  if String.eqb (sessionID c) EmptyString then (Some no_active_session, w) else
  let options := match options with
                 | None => mkNavigateOptions "load"
                 | Some o => o
                 end in
  let options := if String.eqb (WaitUntil options) EmptyString
                 then mkNavigateOptions "load" else options in
  let payload := VMap [("url", VString url)] in
  match NewRequestWithContext "POST" (baseURL c ++ "/session/" ++ sessionID c ++ "/url")
                              (Some payload) with
  | Err err => (Some (Errorf "failed to create navigate request: %w" [OErr err]), w)
  | Ok req =>
  let req := SetContentType req "application/json" in
  match Do req w with
  | (Err err, w) => (Some (Errorf "failed to navigate: %w" [OErr err]), w)
  | (Ok resp, w) =>
  if negb (StatusCode resp =? 200) then
    (Some (Errorf "navigation failed with status: %d" [OInt (StatusCode resp)]), w)
  else if String.eqb (WaitUntil options) "load" then (None, w)
  else if String.eqb (WaitUntil options) "domcontentloaded" then waitForDOMContentLoaded c w
  else if String.eqb (WaitUntil options) "networkidle" then waitForNetworkIdle c w
  else (Some (Errorf "invalid waitUntil option: %s" [OStr (WaitUntil options)]), w)
  end end.

(** findElementNative uses WebDriver's native element finding. *)
Definition findElementNative (c : WebDriverClient) (strategy value : string) (w : World)
    : result string * World :=
  if String.eqb (sessionID c) EmptyString then (Err no_active_session, w) else
  let payload := VMap [("using", VString strategy); ("value", VString value)] in
  match NewRequestWithContext "POST" (baseURL c ++ "/session/" ++ sessionID c ++ "/element")
                              (Some payload) with
  | Err err => (Err (Errorf "failed to create find element request: %w" [OErr err]), w)
  | Ok req =>
  let req := SetContentType req "application/json" in
  match Do req w with
  | (Err err, w) => (Err (Errorf "failed to find element: %w" [OErr err]), w)
  | (Ok resp, w) =>
  if negb (StatusCode resp =? 200) then
    let generic :=
      Errorf "find element failed with status %d: strategy=%s, selector=%s"
             [OInt (StatusCode resp); OStr strategy; OStr value] in
    match decodeMap (Body resp) with
    | Ok errorBody =>
        match lookup errorBody "value" with
        | Some (VMap value) =>
            match lookup value "message" with
            | Some (VString message) =>
                (Err (Errorf "find element failed with status %d: strategy=%s, selector=%s, error=%s"
                             [OInt (StatusCode resp); OStr strategy; OVal (VMap value); OStr message]), w)
            | _ => (Err generic, w)
            end
        | _ => (Err generic, w)
        end
    | Err _ => (Err generic, w)
    end
  else
  match decodeValue into_ElementRef (mkElementRef EmptyString EmptyString) (Body resp) with
  | Err err => (Err (Errorf "failed to decode element response: %w" [OErr err]), w)
  | Ok elementResp =>
      if negb (String.eqb (ElementID elementResp) EmptyString) then (Ok (ElementID elementResp), w)
      else if negb (String.eqb (ELEMENT elementResp) EmptyString) then (Ok (ELEMENT elementResp), w)
      else (Err (Errorf "element not found" []), w)
  end end end.

(** findElementCustom uses JavaScript to find elements with custom
    strategies. *)
Definition findElementCustom (c : WebDriverClient) (strategy : SelectorStrategy)
    (value : string) (w : World) : result string * World :=
  let script := generateSelectorScript strategy value in
  match ExecuteScript c script None w with
  | (Err err, w) => (Err (Errorf "failed to execute selector script: %w" [OErr err]), w)
  | (Ok VNil, w) => (Err (Errorf "element not found" []), w)
  | (Ok result, w) =>
      let w := print (FmtPrintln [OStr "Found element:"; OVal result]) w in
      let invalid := Errorf "invalid element reference returned" [] in
      match result with
      | VMap elemMap =>
          match lookup elemMap w3cKey with
          | Some (VString elemID) => (Ok elemID, w)
          | _ =>
              match lookup elemMap "ELEMENT" with
              | Some (VString elemID) => (Ok elemID, w)
              | _ => (Err invalid, w)
              end
          end
      | _ => (Err invalid, w)
      end
  end.

(** FindElementWithStrategy finds an element using the parsed selector
    strategy. *)
Definition FindElementWithStrategy (c : WebDriverClient) (selector : string) (w : World)
    : result string * World :=
  let parsed := ParseSelector selector in
  if IsNative parsed then findElementNative c (Strategy parsed) (Value parsed) w
  else findElementCustom c (Strategy parsed) (Value parsed) w.

(** FindElement finds an element using an auto-detected selector
    strategy. *)
Definition FindElement (c : WebDriverClient) (selector : string) (w : World)
    : result string * World :=
  FindElementWithStrategy c selector w.

(** The identifier findAllElementsNative keeps for one decoded element:
    the W3C field first, the legacy field as fallback, none when both
    are empty. *)
Definition nativeElementID (elem : ElementRef) : list string :=
  if negb (String.eqb (ElementID elem) EmptyString) then [ElementID elem]
  else if negb (String.eqb (ELEMENT elem) EmptyString) then [ELEMENT elem]
  else [].

(** findAllElementsNative uses WebDriver's native element finding for
    multiple elements. *)
Definition findAllElementsNative (c : WebDriverClient) (strategy value : string) (w : World)
    : result (list string) * World :=
  if String.eqb (sessionID c) EmptyString then (Err no_active_session, w) else
  let payload := VMap [("using", VString strategy); ("value", VString value)] in
  match NewRequestWithContext "POST" (baseURL c ++ "/session/" ++ sessionID c ++ "/elements")
                              (Some payload) with
  | Err err => (Err (Errorf "failed to create find elements request: %w" [OErr err]), w)
  | Ok req =>
  let req := SetContentType req "application/json" in
  match Do req w with
  | (Err err, w) => (Err (Errorf "failed to find elements: %w" [OErr err]), w)
  | (Ok resp, w) =>
  if negb (StatusCode resp =? 200) then
    (Err (Errorf "find elements failed with status: %d" [OInt (StatusCode resp)]), w)
  else
  match decodeValue (into_slice into_ElementRef (mkElementRef EmptyString EmptyString)) []
                    (Body resp) with
  | Err err => (Err (Errorf "failed to decode elements response: %w" [OErr err]), w)
  | Ok elems =>
      (Ok (fold_left (fun elementIDs elem => elementIDs ++ nativeElementID elem)%list elems []), w)
  end end end.

(** The identifier findAllElementsCustom keeps for one element of the
    script result. *)
Definition customElementID (elem : value) : list string :=
  match elem with
  | VMap elemMap =>
      match lookup elemMap w3cKey with
      | Some (VString elemID) => [elemID]
      | _ =>
          match lookup elemMap "ELEMENT" with
          | Some (VString elemID) => [elemID]
          | _ => []
          end
      end
  | _ => []
  end.

(** findAllElementsCustom uses JavaScript to find all elements with
    custom strategies. *)
Definition findAllElementsCustom (c : WebDriverClient) (strategy : SelectorStrategy)
    (value : string) (w : World) : result (list string) * World :=
  let script := generateAllSelectorScript strategy value in
  match ExecuteScript c script None w with
  | (Err err, w) => (Err (Errorf "failed to execute selector script: %w" [OErr err]), w)
  | (Ok VNil, w) => (Ok [], w)
  | (Ok (VArray elemArray), w) =>
      (Ok (fold_left (fun elementIDs elem => elementIDs ++ customElementID elem)%list
                     elemArray []), w)
  | (Ok _, w) => (Ok [], w)
  end.

(** FindAllElements finds all elements matching the selector and returns
    their IDs. *)
Definition FindAllElements (c : WebDriverClient) (selector : string) (w : World)
    : result (list string) * World :=
  let parsed := ParseSelector selector in
  if IsNative parsed then findAllElementsNative c (Strategy parsed) (Value parsed) w
  else findAllElementsCustom c (Strategy parsed) (Value parsed) w.

(** FindElements returns the count of elements matching the selector. *)
Definition FindElements (c : WebDriverClient) (selector : string) (w : World)
    : result Z * World :=
  match FindAllElements c selector w with
  | (Err err, w) => (Err err, w)
  | (Ok elementIDs, w) => (Ok (Z.of_nat (List.length elementIDs)), w)
  end.

(** The polling loop of WaitForSelector.  [schedule] lists the channel
    deliveries its select statement receives, in order: the ticker every
    100 milliseconds, the timeout context once 30 seconds have passed,
    either one when both are ready.  Whatever the Go runtime delivers is
    some schedule.  The result is [None] while the loop is still blocked
    in the select when the schedule ends. *)
Fixpoint waitLoop (schedule : list Event) (c : WebDriverClient)
    (selector state script : string) (w : World) : option (option error) * World :=
  match schedule with
  | [] => (None, w)
  | CtxDone :: _ =>
      (Some (Some (Errorf "timeout waiting for selector '%s' to be %s"
                          [OStr selector; OStr state])), w)
  | Tick :: rest =>
      match ExecuteScript c script None w with
      | (Err _, w) => waitLoop rest c selector state script w
      | (Ok (VBool true), w) => (Some None, w)
      | (Ok _, w) => waitLoop rest c selector state script w
      end
  end.

(** WaitForSelector waits for an element matching the selector to reach
    the specified state. *)
Definition WaitForSelector (c : WebDriverClient) (selector state : string)
    (schedule : list Event) (w : World) : option (option error) * World :=
  if String.eqb (sessionID c) EmptyString then (Some (Some no_active_session), w) else
  let script := generateWaitScript selector state in
  waitLoop schedule c selector state script w.

(** The script ClickElement runs. *)
Definition clickScript : string :=
  "
		var element = arguments[0];
		if (!element) {
			return {success: false, error: " ++ dq ++ "Element not found" ++ dq ++ "};
		}

		// Get element info
		var info = {
			tagName: element.tagName,
			id: element.id,
			className: element.className,
			text: element.textContent ? element.textContent.substring(0, 50) : " ++ dq ++ dq ++ ",
			visible: element.offsetWidth > 0 && element.offsetHeight > 0,
			disabled: element.disabled,
			type: element.type
		};

		// Scroll into view
		element.scrollIntoView({behavior: 'instant', block: 'center', inline: 'center'});

		// Try to click
		try {
			element.click();
			return {success: true, info: info};
		} catch (e) {
			return {success: false, error: e.toString(), info: info};
		}
	".

(** ClickElement clicks an element by its ID. *)
Definition ClickElement (c : WebDriverClient) (elementID : string) (w : World)
    : option error * World :=
  if String.eqb (sessionID c) EmptyString then (Some no_active_session, w) else
  let elementRef := VMap [(w3cKey, VString elementID)] in
  match ExecuteScript c clickScript (Some [elementRef]) w with
  | (Err err, w) => (Some (Errorf "failed to click element via JavaScript: %w" [OErr err]), w)
  | (Ok result, w) =>
      match result with
      | VMap resultMap =>
          match lookup resultMap "success" with
          | Some (VBool false) =>
              let errorMsg := match lookup resultMap "error" with
                              | Some (VString errStr) => errStr
                              | _ => "unknown error"
                              end in
              let w := match lookup resultMap "info" with
                       | Some (VMap info) =>
                           print (LogPrintf "Click failed. Element info: %+v" [OVal (VMap info)]) w
                       | _ => w
                       end in
              (Some (Errorf "click failed: %s" [OStr errorMsg]), w)
          | _ =>
              let w := match lookup resultMap "info" with
                       | Some (VMap info) =>
                           print (LogPrintf "Click succeeded. Element info: %+v" [OVal (VMap info)]) w
                       | _ => w
                       end in
              (None, w)
          end
      | _ => (None, w)
      end
  end.

(** SendKeys sends text to an element. *)
Definition SendKeys (c : WebDriverClient) (elementID text : string) (w : World)
    : option error * World :=
  if String.eqb (sessionID c) EmptyString then (Some no_active_session, w) else
  let payload := VMap [("text", VString text)] in
  match NewRequestWithContext "POST"
          (baseURL c ++ "/session/" ++ sessionID c ++ "/element/" ++ elementID ++ "/value")
          (Some payload) with
  | Err err => (Some (Errorf "failed to create send keys request: %w" [OErr err]), w)
  | Ok req =>
  let req := SetContentType req "application/json" in
  match Do req w with
  | (Err err, w) => (Some (Errorf "failed to send keys: %w" [OErr err]), w)
  | (Ok resp, w) =>
  if negb (StatusCode resp =? 200) then
    (Some (Errorf "send keys failed with status: %d" [OInt (StatusCode resp)]), w)
  else (None, w)
  end end.

(** decodePNG decodes the data and converts the image to RGBA. *)
Definition decodePNG (data : list byte) : result Image :=
  match png_Decode data with
  | Err err => Err err
  | Ok img =>
      let bounds := Bounds img in
      Ok (for_ (MinY bounds) (MaxY bounds) (fun y rgba =>
            for_ (MinX bounds) (MaxX bounds) (fun x rgba =>
              Set_ rgba x y (At img x y))
            rgba)
          (NewRGBA bounds))
  end.

Definition encodePNG (img : Image) : result (list byte) := png_Encode img.

Definition cropImageRect (img : Image) (x y width height : Z) : Image :=
  for_ 0 height (fun dy cropped =>
    for_ 0 width (fun dx cropped =>
      Set_ cropped dx dy (At img (x + dx) (y + dy)))
    cropped)
  (NewRGBA (Rect 0 0 width height)).

(** cropImage crops a PNG image to the specified width and height. *)
Definition cropImage (imageData : list byte) (width height : Z) (w : World)
    : result (list byte) * World :=
  match decodePNG imageData with
  | Err err => (Err (Errorf "failed to decode PNG: %w" [OErr err]), w)
  | Ok img =>
      let bounds := Bounds img in
      let imgWidth := Dx bounds in
      let imgHeight := Dy bounds in
      let w := print (LogPrintf "Original image: %dx%d, Requested crop: %dx%d"
                                [OInt imgWidth; OInt imgHeight; OInt width; OInt height]) w in
      if (width >=? imgWidth) && (height >=? imgHeight) then
        (Ok imageData, print (LogPrintf "Requested size >= actual size, returning original" []) w)
      else
        let croppedWidth := if width >? imgWidth then imgWidth else width in
        let croppedHeight := if height >? imgHeight then imgHeight else height in
        let w := print (LogPrintf "Cropping to: %dx%d" [OInt croppedWidth; OInt croppedHeight]) w in
        let croppedImg := cropImageRect img 0 0 croppedWidth croppedHeight in
        (encodePNG croppedImg, w)
  end.




End Client.

(* ================================================================== *)
(** * webdriver.go: CreateSession *)
(* ================================================================== *)

(** WebDriverSession represents a WebDriver session. *)
Record WebDriverSession : Type := mkSession {
  SessionID : string;
  Capabilities : list (string * value)
}.

(** The folding of object keys by encoding/json, complete: ASCII letters
    to upper case, the long s (bytes 197 191) to S and the Kelvin sign
    (bytes 226 132 170) to K, the two letters outside ASCII that fold
    into it. *)
Fixpoint foldNameRunes (s : string) : string :=
  match s with
  | EmptyString => EmptyString
  | String "197"%char (String "191"%char rest) => String "S"%char (foldNameRunes rest)
  | String "226"%char (String "132"%char (String "170"%char rest)) =>
      String "K"%char (foldNameRunes rest)
  | String c rest => String (upper c) (foldNameRunes rest)
  end.

(** Decoding every member that addresses the field [name], as
    [into_field], for field names that contain the letters k or s. *)
Fixpoint into_field_runes {T : Type} (into : value -> T -> option T) (name : string)
    (members : list (string * value)) (cur : T) : option T :=
  match members with
  | [] => Some cur
  | (k, v) :: rest =>
      if String.eqb (foldNameRunes k) (foldNameRunes name) then
        match into v cur with
        | Some cur' => into_field_runes into name rest cur'
        | None => None
        end
      else into_field_runes into name rest cur
  end.

Definition into_WebDriverSession (v : value) (cur : WebDriverSession) : option WebDriverSession :=
  match v with
  | VMap members =>
      match into_field_runes into_string "sessionId" members (SessionID cur),
            into_field_runes into_map "capabilities" members (Capabilities cur) with
      | Some id, Some caps => Some (mkSession id caps)
      | _, _ => None
      end
  | VNil => Some cur
  | _ => None
  end.

Section Session.
Context {net : Net}.

(** CreateSession creates a new WebDriver session.  [capabilities] is
    the map by its members in key order.  The client is returned because
    the method assigns its [sessionID] field. *)
Definition CreateSession (c : WebDriverClient) (capabilities : list (string * value))
    (w : World) : result WebDriverSession * WebDriverClient * World :=
  let payload := VMap [("capabilities", VMap [("alwaysMatch", VMap capabilities)])] in
  match NewRequestWithContext "POST" (baseURL c ++ "/session") (Some payload) with
  | Err err => (Err (Errorf "failed to create request: %w" [OErr err]), c, w)
  | Ok req =>
  let req := SetContentType req "application/json" in
  match Do req w with
  | (Err err, w) => (Err (Errorf "failed to create session: %w" [OErr err]), c, w)
  | (Ok resp, w) =>
  if negb (StatusCode resp =? 200) then
    (Err (Errorf "session creation failed with status: %d" [OInt (StatusCode resp)]), c, w)
  else
  match decodeValue into_WebDriverSession (mkSession EmptyString []) (Body resp) with
  | Err err => (Err (Errorf "failed to decode session response: %w" [OErr err]), c, w)
  | Ok session => (Ok session, mkClient (baseURL c) (SessionID session), w)
  end end end.

End Session.

(* ================================================================== *)
(** * Image comparison: CreateDiffImage *)
(* ================================================================== *)

(** The SetRGBA method of image.RGBA: the colour is stored as given;
    nothing happens outside the bounds. *)
Definition SetRGBA (img : Image) (x y : Z) (c : Color) : Image :=
  if inRect (Bounds img) x y then
    mkImage (Bounds img)
            (fun x' y' => if (x' =? x) && (y' =? y) then c else At img x' y')
  else img.

(** [abs], the helper of CreateDiffImage. *)
Definition abs (n : Z) : Z := if n <? 0 then - n else n.

(** The colour CreateDiffImage gives one pixel pair: pure red when a
    channel differs by more than the threshold, else the grey average
    of the first image's colour with its alpha. *)
Definition diffColor (c1 c2 : Color) : Color :=
  let '(r1, g1, b1, a1) := Color_RGBA c1 in
  let '(r2, g2, b2, a2) := Color_RGBA c2 in
  let r1b := uint8 (Z.shiftr r1 8) in
  let g1b := uint8 (Z.shiftr g1 8) in
  let b1b := uint8 (Z.shiftr b1 8) in
  let a1b := uint8 (Z.shiftr a1 8) in
  let r2b := uint8 (Z.shiftr r2 8) in
  let g2b := uint8 (Z.shiftr g2 8) in
  let b2b := uint8 (Z.shiftr b2 8) in
  let a2b := uint8 (Z.shiftr a2 8) in
  let dr := abs (r1b - r2b) in
  let dg := abs (g1b - g2b) in
  let db := abs (b1b - b2b) in
  let da := abs (a1b - a2b) in
  let threshold := 10 in
  if (dr >? threshold) || (dg >? threshold) || (db >? threshold) || (da >? threshold) then
    RGBA 255 0 0 255
  else
    let gray := uint8 (Z.quot (r1b + g1b + b1b) 3) in
    RGBA gray gray gray a1b.

(** The diff image of CreateDiffImage after both images are decoded. *)
Definition diffImage (img1 img2 : Image) : Image :=
  let '(img1, img2) := matchDimensions img1 img2 in
  let bounds1 := Bounds img1 in
  let width := Dx bounds1 in
  let height := Dy bounds1 in
  for_ (MinY bounds1) (MaxY bounds1) (fun y diffImg =>
    for_ (MinX bounds1) (MaxX bounds1) (fun x diffImg =>
      SetRGBA diffImg (x - MinX bounds1) (y - MinY bounds1)
              (diffColor (At img1 x y) (At img2 x y)))
    diffImg)
  (NewRGBA (Rect 0 0 width height)).

(** The files written so far, latest first. *)
Definition Files : Type := list (string * list byte).

(** [os.WriteFile]: whether writing [data] to [path] fails. *)
Class FileSystem : Type := {
  writeFileError : Files -> string -> list byte -> option error
}.

Section DiffImage.
Context {codec : Codec} {fs : FileSystem}.

(** CreateDiffImage creates a visual diff image highlighting differences
    between two images; it returns the PNG bytes and saves them to
    [filePath] if one is given. *)
Definition CreateDiffImage (img1Bytes img2Bytes : list byte) (filePath : string)
    (files : Files) : result (list byte) * Files :=
  match png_Decode img1Bytes with
  | Err err => (Err (Errorf "failed to decode first image: %w" [OErr err]), files)
  | Ok img1 =>
  match png_Decode img2Bytes with
  | Err err => (Err (Errorf "failed to decode second image: %w" [OErr err]), files)
  | Ok img2 =>
  match png_Encode (diffImage img1 img2) with
  | Err err => (Err (Errorf "failed to encode diff image: %w" [OErr err]), files)
  | Ok diffBytes =>
      if negb (String.eqb filePath EmptyString) then
        match writeFileError files filePath diffBytes with
        | Some err =>
            (Err (Errorf "failed to write diff image to %s: %w" [OStr filePath; OErr err]),
             files)
        | None => (Ok diffBytes, (filePath, diffBytes) :: files)
        end
      else (Ok diffBytes, files)
  end end end.

End DiffImage.

(* ================================================================== *)
(** * selectors.go: IsRegex and ParseRegex *)
(* ================================================================== *)

(** [strings.HasSuffix(s, suffix)]. *)
Definition HasSuffix (s suffix : string) : bool :=
  (String.length suffix <=? String.length s)%nat &&
  String.eqb (drop (String.length s - String.length suffix) s) suffix.

(** The slice expression [s[lo:hi]], for [lo <= hi <= len(s)]. *)
Definition slice (s : string) (lo hi : nat) : string := substring lo (hi - lo) s.

(** IsRegex checks if a string is a regex pattern (enclosed in /). *)
Definition IsRegex (s : string) : bool :=
  (2 <=? String.length s)%nat && HasPrefix s "/" && HasSuffix s "/".

(** The regexp package: compiled expressions and [regexp.Compile]. *)
Class Regexps : Type := {
  Regexp : Type;
  regexp_Compile : string -> result Regexp
}.

Section Regex.
Context {regexps : Regexps}.

(** ParseRegex extracts the regex pattern from /pattern/ format. *)
Definition ParseRegex (s : string) : result Regexp :=
  if negb (IsRegex s) then Err (Errorf "not a regex pattern" [])
  else
    let pattern := slice s 1 (String.length s - 1) in
    regexp_Compile pattern.

End Regex.

(* ================================================================== *)
(** * locator.go and browser.go: the callers of the client *)
(* ================================================================== *)

(** A Page, by its client ([None] for a nil pointer); its other fields
    take no part in the operations below. *)
Record Page : Type := mkPage {
  client : option WebDriverClient
}.

(** Locator represents a way to find element(s) on the page at any
    moment.  If [locatorElementID] is set, the locator refers to a
    specific element. *)
Record Locator : Type := mkLocator {
  page : Page;
  selector : string;
  locatorElementID : string
}.

Definition not_initialized : error := Errorf "browser session not initialized" [].

Section Callers.
Context {net : Net}.

(** Locator creates a locator for the given selector. *)
Definition Page_Locator (p : Page) (selector : string) : Locator :=
  mkLocator p selector EmptyString.

(** The element a locator acts on: the one it is bound to, or else the
    one its selector finds now. *)
Definition resolve (l : Locator) (c : WebDriverClient) (w : World) : result string * World :=
  if negb (String.eqb (locatorElementID l) EmptyString) then (Ok (locatorElementID l), w)
  else
    match FindElement c (selector l) w with
    | (Err err, w) =>
        (Err (Errorf "failed to find element with selector '%s': %w"
                     [OStr (selector l); OErr err]), w)
    | (Ok elementID, w) => (Ok elementID, w)
    end.

(** Click clicks on the element matched by the locator (the function the
    promise runs). *)
Definition Locator_Click (l : Locator) (w : World) : option error * World :=
  match client (page l) with
  | None => (Some not_initialized, w)
  | Some c =>
      match resolve l c w with
      | (Err err, w) => (Some err, w)
      | (Ok elementID, w) =>
          match ClickElement c elementID w with
          | (Some err, w) => (Some (Errorf "failed to click element: %w" [OErr err]), w)
          | (None, w) => (None, w)
          end
      end
  end.

(** Count returns the number of elements matching the locator. *)
Definition Locator_Count (l : Locator) (w : World) : result Z * World :=
  match client (page l) with
  | None => (Err not_initialized, w)
  | Some c =>
      match FindElements c (selector l) w with
      | (Err err, w) =>
          (Err (Errorf "failed to find elements with selector '%s': %w"
                       [OStr (selector l); OErr err]), w)
      | (Ok count, w) => (Ok count, w)
      end
  end.

(** All returns all elements matching the locator as an array of
    Locators. *)
Definition Locator_All (l : Locator) (w : World) : result (list Locator) * World :=
  match client (page l) with
  | None => (Err not_initialized, w)
  | Some c =>
      match FindAllElements c (selector l) w with
      | (Err err, w) =>
          (Err (Errorf "failed to find elements with selector '%s': %w"
                       [OStr (selector l); OErr err]), w)
      | (Ok elementIDs, w) =>
          (Ok (map (fun elementID => mkLocator (page l) (selector l) elementID) elementIDs), w)
      end
  end.

(** WaitFor waits for the locator to satisfy the given state; [options]
    is [None] for a nil map. *)
Definition Locator_WaitFor (l : Locator) (options : option (list (string * value)))
    (schedule : list Event) (w : World) : option (option error) * World :=
  match client (page l) with
  | None => (Some (Some not_initialized), w)
  | Some c =>
      let state := match options with
                   | Some opts =>
                       match lookup opts "state" with
                       | Some (VString stateVal) => stateVal
                       | _ => "visible"
                       end
                   | None => "visible"
                   end in
      match WaitForSelector c (selector l) state schedule w with
      | (Some (Some err), w) =>
          (Some (Some (Errorf "waitFor failed for selector '%s': %w"
                              [OStr (selector l); OErr err])), w)
      | (r, w) => (r, w)
      end
  end.

(** The script TextContent runs. *)
Definition textContentScript : string :=
  "
			var element = arguments[0];
			if (!element) return null;
			return element.textContent;
		".

(** TextContent returns the text content of the element. *)
Definition Locator_TextContent (l : Locator) (w : World) : result value * World :=
  match client (page l) with
  | None => (Err not_initialized, w)
  | Some c =>
      match resolve l c w with
      | (Err err, w) => (Err err, w)
      | (Ok elementID, w) =>
          let elementRef := VMap [(w3cKey, VString elementID)] in
          match ExecuteScript c textContentScript (Some [elementRef]) w with
          | (Err err, w) => (Err (Errorf "failed to get text content: %w" [OErr err]), w)
          | (Ok result, w) => (Ok result, w)
          end
      end
  end.

(** Type types text into the element; the delay option is read and not
    used. *)
Definition Locator_Type (l : Locator) (text : string)
    (options : option (list (string * value))) (w : World) : option error * World :=
  match client (page l) with
  | None => (Some not_initialized, w)
  | Some c =>
      match resolve l c w with
      | (Err err, w) => (Some err, w)
      | (Ok elementID, w) =>
          match SendKeys c elementID text w with
          | (Some err, w) => (Some (Errorf "failed to type text: %w" [OErr err]), w)
          | (None, w) => (None, w)
          end
      end
  end.

(** Click clicks an element by CSS selector. *)
Definition Page_Click (p : Page) (selector : string) (w : World) : option error * World :=
  match client p with
  | None => (Some not_initialized, w)
  | Some c =>
      match FindElement c selector w with
      | (Err err, w) => (Some (Errorf "failed to find element: %w" [OErr err]), w)
      | (Ok elementID, w) =>
          match ClickElement c elementID w with
          | (Some err, w) => (Some (Errorf "failed to click element: %w" [OErr err]), w)
          | (None, w) => (None, w)
          end
      end
  end.

(** Fill fills an input field with text. *)
Definition Page_Fill (p : Page) (selector text : string) (w : World) : option error * World :=
  match client p with
  | None => (Some not_initialized, w)
  | Some c =>
      match FindElement c selector w with
      | (Err err, w) => (Some (Errorf "failed to find element: %w" [OErr err]), w)
      | (Ok elementID, w) =>
          match SendKeys c elementID text w with
          | (Some err, w) => (Some (Errorf "failed to send keys: %w" [OErr err]), w)
          | (None, w) => (None, w)
          end
      end
  end.

End Callers.

(* ================================================================== *)
(** * Vocabulary of the statements *)
(* ================================================================== *)

(** The request Navigate hands to the transport. *)
Definition navigateRequest (c : WebDriverClient) (url : string) : Request :=
  mkRequest "POST" (baseURL c ++ "/session/" ++ sessionID c ++ "/url")
            (Some "application/json") (Some (VMap [("url", VString url)])).

(** The request ExecuteScript hands to the transport. *)
Definition executeRequest (c : WebDriverClient) (script : string) (args : list value) : Request :=
  mkRequest "POST" (baseURL c ++ "/session/" ++ sessionID c ++ "/execute/sync")
            (Some "application/json")
            (Some (VMap [("args", VArray args); ("script", VString script)])).

(** The request DeleteSession hands to the transport. *)
Definition deleteRequest (c : WebDriverClient) : Request :=
  mkRequest "DELETE" (baseURL c ++ "/session/" ++ sessionID c) None None.

(** The world after the transport has answered [req]. *)
Definition afterRequest {net : Net} (req : Request) (w : World) : World :=
  mkWorld (now w + elapsed (roundTrip w req))%N (sent w ++ [req]) (printed w).


(** The four channels of a colour at 8-bit precision, as CompareImages
    and CreateDiffImage take them. *)
Definition channels8 (c : Color) : Channels :=
  let '(r, g, b, a) := Color_RGBA c in
  (Z.shiftr r 8, Z.shiftr g 8, Z.shiftr b 8, Z.shiftr a 8).

(** One channel is 0 where the other is 255. *)
Definition opposite (u v : Z) : Prop :=
  (u = 0 /\ v = 255) \/ (u = 255 /\ v = 0).

(** Two colours that differ maximally: 0 versus 255 on all four 8-bit
    channels. *)
Definition maximallyDifferent (c1 c2 : Color) : Prop :=
  let '(r1, g1, b1, a1) := channels8 c1 in
  let '(r2, g2, b2, a2) := channels8 c2 in
  opposite r1 r2 /\ opposite g1 g2 /\ opposite b1 b2 /\ opposite a1 a2.

(** An image with at least one pixel; png.Decode yields no other. *)
Definition nonEmpty (img : Image) : Prop :=
  0 < Dx (Bounds img) /\ 0 < Dy (Bounds img).




(* ================================================================== *)
(** * Test doubles *)
(* ================================================================== *)

(** A reply carrying a response, and one carrying a transport error. *)
Definition respond (status : Z) (body : option value) : Reply :=
  mkReply (5 * Millisecond)%N (Ok (mkResponse status body)).

Definition refuse : Reply :=
  mkReply 0%N (Err (External "dial tcp: connection refused")).

(** A scripted transport: the n-th request handed to it is answered by
    the n-th reply of [replies], later ones are refused; a URL listed in
    [malformed] cannot be made into a request. *)
Definition scriptedNet (replies : list Reply) (malformed : list string) : Net :=
  {| roundTrip := fun w _ => nth (List.length (sent w)) replies refuse;
     requestError := fun _ url =>
       if existsb (String.eqb url) malformed
       then Some (External "net/url: invalid control character in URL")
       else None |}.

(** An image of one colour. *)
Definition uniformImage (width height : Z) (c : Color) : Image :=
  mkImage (Rect 0 0 width height) (fun _ _ => c).

Definition byteZ (x : byte) : Z := Z.of_N (Byte.to_N x).

(** A stand-in for the PNG codec: it reads the six bytes
    [width; height; r; g; b; a] as a [width] x [height] image whose
    pixels all are the NRGBA colour [r g b a], and refuses anything else
    as well as empty images. *)
Definition swatchCodec : Codec :=
  {| png_Decode := fun data =>
       match data with
       | [wd; ht; r; g; b; a] =>
           if (0 <? byteZ wd) && (0 <? byteZ ht)
           then Ok (uniformImage (byteZ wd) (byteZ ht)
                                 (NRGBA (byteZ r) (byteZ g) (byteZ b) (byteZ a)))
           else Err (External "png: invalid format: non-positive dimension")
       | _ => Err (External "png: invalid format: not a PNG file")
       end;
     png_Encode := fun _ => Err (External "png: unsupported");
     base64_DecodeString := fun _ => Err (External "illegal base64 data") |}.

(** A client with an active session, one without, and a fresh world. *)
Definition activeClient : WebDriverClient := mkClient "http://localhost:4444" "5C8E".
Definition idleClient : WebDriverClient := mkClient "http://localhost:4444" EmptyString.
Definition world0 : World := mkWorld 0%N [] [].

(* ================================================================== *)
(** * Vocabulary of the further statements *)
(* ================================================================== *)

(** The arguments ExecuteScript sends: the empty array for a nil slice. *)
Definition sentArgs (args : option (list value)) : list value :=
  match args with
  | None => []
  | Some a => a
  end.

(** The error pollForCondition returns at its deadline. *)
Definition pollTimeout : error := Errorf "timeout waiting for condition after 30s" [].

(** The error WaitForSelector returns at its deadline. *)
Definition waitTimeout (selector state : string) : error :=
  Errorf "timeout waiting for selector '%s' to be %s" [OStr selector; OStr state].

(** The ticks a schedule delivers before the timeout context is done. *)
Fixpoint ticksBeforeDone (schedule : list Event) : nat :=
  match schedule with
  | Tick :: rest => S (ticksBeforeDone rest)
  | _ => O
  end.

(** The request CreateSession hands to the transport. *)
Definition createRequest (c : WebDriverClient) (capabilities : list (string * value)) : Request :=
  mkRequest "POST" (baseURL c ++ "/session") (Some "application/json")
            (Some (VMap [("capabilities", VMap [("alwaysMatch", VMap capabilities)])])).





(** The colour that marks a difference. *)
Definition markerRed : Color := RGBA 255 0 0 255.

(** The lookup of [selector] through the client of the page fails with
    [err] in the world [w]. *)
Definition FindElement_fails {net : Net} (p : Page) (selector : string) (w : World)
    (err : error) : Prop :=
  exists c, client p = Some c /\ fst (FindElement c selector w) = Err err.


(** The byte of a number, modulo 256. *)
Definition zByte (x : Z) : byte :=
  match Byte.of_N (Z.to_N (x mod 256)) with
  | Some b => b
  | None => x00
  end.

(** A stand-in codec that also encodes: the encoding of an RGBA image is
    the swatch of its size and of its top-left pixel. *)
Definition cornerCodec : Codec :=
  {| png_Decode := png_Decode (Codec := swatchCodec);
     png_Encode := fun img =>
       match At img 0 0 with
       | RGBA r g b a =>
           Ok [zByte (Dx (Bounds img)); zByte (Dy (Bounds img));
               zByte r; zByte g; zByte b; zByte a]
       | _ => Err (External "png: unsupported colour type")
       end;
     base64_DecodeString := base64_DecodeString (Codec := swatchCodec) |}.

(** A file system on which every write succeeds, and one on which none
    does. *)
Definition scratchDisk : FileSystem :=
  {| writeFileError := fun _ _ _ => None |}.

Definition readOnlyDisk : FileSystem :=
  {| writeFileError := fun _ _ _ => Some (External "open: read-only file system") |}.

(* ================================================================== *)
(** * Properties *)
(* ================================================================== *)

(** ** Strings *)

Lemma HasPrefix_app (p rest : string) : HasPrefix (p ++ rest) p = true.
Proof.
  unfold HasPrefix. induction p as [|c p IH]; simpl.
  - destruct rest; reflexivity.
  - destruct (ascii_dec c c) as [_|ne]; [exact IH | contradiction].
Qed.

Lemma HasPrefix_inv (s p : string) :
  HasPrefix s p = true -> s = p ++ drop (String.length p) s.
Proof.
  unfold HasPrefix. revert s. induction p as [|c p IH]; intros s H.
  - reflexivity.
  - destruct s as [|d s]; simpl in H; [discriminate|].
    destruct (ascii_dec c d) as [->|ne]; [|discriminate].
    simpl. f_equal. apply IH, H.
Qed.

Lemma drop_app (p rest : string) : drop (String.length p) (p ++ rest) = rest.
Proof. induction p; simpl; auto. Qed.

Lemma TrimPrefix_app (p rest : string) : TrimPrefix (p ++ rest) p = rest.
Proof. unfold TrimPrefix. rewrite HasPrefix_app. apply drop_app. Qed.

(** ** ParseSelector *)

Example ParseSelector_xpath :
  ParseSelector "xpath=//div" = mkParsed StrategyXPath "//div" true.
Proof. reflexivity. Qed.

Example ParseSelector_role :
  ParseSelector "role=button" = mkParsed StrategyRole "button" false.
Proof. reflexivity. Qed.

Example ParseSelector_css :
  ParseSelector "button.submit" = mkParsed StrategyCSSSelector "button.submit" true.
Proof. reflexivity. Qed.

Example ParseSelector_bare_xpath :
  ParseSelector "(//a)[1]" = mkParsed StrategyXPath "(//a)[1]" true.
Proof. reflexivity. Qed.

(** C3. For every selector string, ParseSelector returns the strategy,
    value and native flag of the first row of the prefix table (xpath=,
    bare // or (//, text=, visible-text=, id=, class=, tag=, link=,
    partial-link=, data-testid=, aria-label=, role=) one of whose
    prefixes the string starts with, the prefix stripped from the value
    except for the bare XPath forms; a string that starts with none of
    them is a native CSS selector with the unchanged input as value. *)
Theorem ParseSelector_first_matching_prefix (selector : string) :
  ParseSelector selector = resolve_by_table prefix_table selector.
Proof.
  unfold ParseSelector, TrimPrefix, prefix_table, resolve_by_table, row_match.
  cbn [find row_prefixes row_strategy row_native row_strip].
  repeat match goal with
         | |- context [HasPrefix selector ?p] =>
             destruct (HasPrefix selector p) eqn:?; cbn [orb]; try reflexivity
         end.
Qed.

(** A row that strips: the value is the remainder after the prefix. *)
Lemma ParseSelector_strips (rest : string) :
  ParseSelector ("data-testid=" ++ rest) = mkParsed StrategyDataTestID rest false.
Proof. destruct rest; reflexivity. Qed.

(** ** Operations without a session *)

Section NoSession.
Context {net : Net} {codec : Codec}.


(** On a custom selector the lookups fail the same way, the error
    wrapped by the script runner's caller. *)
Lemma empty_session_custom_lookup (c : WebDriverClient) (w : World) (selector : string) :
  sessionID c = EmptyString ->
  IsNative (ParseSelector selector) = false ->
  FindElement c selector w
    = (Err (Errorf "failed to execute selector script: %w" [OErr no_active_session]), w) /\
  FindAllElements c selector w
    = (Err (Errorf "failed to execute selector script: %w" [OErr no_active_session]), w).
Proof.
  intros Hid Hcustom.
  unfold FindElement, FindElementWithStrategy, FindAllElements,
    findElementCustom, findAllElementsCustom, ExecuteScript.
  rewrite Hcustom, Hid. cbn [String.eqb]. split; reflexivity.
Qed.

End NoSession.


(** ** Navigate *)

Section NavigateProperties.
Context {net : Net}.

(** C9. Navigate with an active session and a waitUntil value other than
    load, domcontentloaded and networkidle fails with the
    invalid-argument error only after the navigate command was handed to
    the transport and answered with status 200: whenever that error is
    returned the request has been sent, and it is returned (for a value
    that is not empty, the empty one standing for load) as soon as the
    endpoint answers 200. *)
Theorem Navigate_invalid_waitUntil_after_request
    (c : WebDriverClient) (url : string) (options : NavigateOptions) (w : World) :
  sessionID c <> EmptyString ->
  WaitUntil options <> "load" ->
  WaitUntil options <> "domcontentloaded" ->
  WaitUntil options <> "networkidle" ->
  let req := navigateRequest c url in
  let invalid := Errorf "invalid waitUntil option: %s" [OStr (WaitUntil options)] in
  (forall w', Navigate c url (Some options) w = (Some invalid, w') ->
     w' = afterRequest req w /\
     exists resp, answer (roundTrip w req) = Ok resp /\ StatusCode resp = 200) /\
  (WaitUntil options <> EmptyString ->
   requestError (Method req) (URL req) = None ->
   forall resp, answer (roundTrip w req) = Ok resp -> StatusCode resp = 200 ->
     Navigate c url (Some options) w = (Some invalid, afterRequest req w)).
Proof.
  intros Hid Hload Hdom Hidle req invalid.
  apply String.eqb_neq in Hid, Hload, Hdom, Hidle.
  assert (Hrun : Navigate c url (Some options) w =
    match requestError (Method req) (URL req) with
    | Some err => (Some (Errorf "failed to create navigate request: %w" [OErr err]), w)
    | None =>
        match answer (roundTrip w req) with
        | Err err => (Some (Errorf "failed to navigate: %w" [OErr err]), afterRequest req w)
        | Ok resp =>
            if negb (StatusCode resp =? 200) then
              (Some (Errorf "navigation failed with status: %d" [OInt (StatusCode resp)]),
               afterRequest req w)
            else if String.eqb (WaitUntil options) EmptyString then (None, afterRequest req w)
            else (Some invalid, afterRequest req w)
        end
    end).
  { unfold Navigate, NewRequestWithContext. rewrite Hid.
    change (requestError "POST" (baseURL c ++ "/session/" ++ sessionID c ++ "/url"))
      with (requestError (Method req) (URL req)).
    destruct (requestError (Method req) (URL req)); [reflexivity|].
    unfold Do, SetContentType. cbn [Method URL ContentType Payload].
    fold (navigateRequest c url). fold req. fold (afterRequest req w).
    destruct (answer (roundTrip w req)) as [resp|err]; [|reflexivity].
    destruct (negb (StatusCode resp =? 200)); [reflexivity|].
    destruct (String.eqb (WaitUntil options) EmptyString); cbn [WaitUntil].
    - reflexivity.
    - rewrite Hload, Hdom, Hidle. reflexivity. }
  rewrite Hrun. clear Hrun. split.
  - intros w'.
    destruct (requestError (Method req) (URL req)); [discriminate|].
    destruct (answer (roundTrip w req)) as [resp|err]; [|discriminate].
    destruct (StatusCode resp =? 200) eqn:Hstatus; cbn [negb]; [|discriminate].
    destruct (String.eqb (WaitUntil options) EmptyString); [discriminate|].
    intros H; injection H as <-.
    split; [reflexivity|].
    exists resp. split; [reflexivity|]. apply Z.eqb_eq, Hstatus.
  - intros Hnonempty Hreq resp Hanswer Hstatus.
    apply String.eqb_neq in Hnonempty.
    rewrite Hreq, Hanswer, Hstatus, Hnonempty. reflexivity.
Qed.

End NavigateProperties.

Lemma Navigate_invalid_waitUntil_after_request_witness :
  let net := scriptedNet [respond 200 (Some (VMap [("value", VNil)]))] [] in
  Navigate activeClient "https://example.com" (Some (mkNavigateOptions "commit")) world0
    = (Some (Errorf "invalid waitUntil option: %s" [OStr "commit"]),
       mkWorld (5 * Millisecond)%N [navigateRequest activeClient "https://example.com"] []).
Proof.
  intros net.
  refine (proj2 (Navigate_invalid_waitUntil_after_request (net := net) activeClient
                   "https://example.com" (mkNavigateOptions "commit") world0 _ _ _ _)
                _ eq_refl _ eq_refl eq_refl);
    discriminate.
Defined.

(** ** ClickElement *)

Section ClickProperties.
Context {net : Net}.

(** A script result that reports a failed click: an object whose
    success member is the boolean false. *)
Lemma ClickElement_reports_failure
    (c : WebDriverClient) (elementID : string) (w w1 : World)
    (resultMap : list (string * value)) :
  ExecuteScript c clickScript (Some [VMap [(w3cKey, VString elementID)]]) w
    = (Ok (VMap resultMap), w1) ->
  lookup resultMap "success" = Some (VBool false) ->
  exists msg, fst (ClickElement c elementID w) = Some (Errorf "click failed: %s" [OStr msg]).
Proof.
  intros Hrun Hfalse. unfold ClickElement.
  destruct (String.eqb (sessionID c) EmptyString) eqn:Hid.
  - unfold ExecuteScript in Hrun. rewrite Hid in Hrun. discriminate.
  - rewrite Hrun, Hfalse. eexists. reflexivity.
Qed.

(** C10. ClickElement returns no error whenever the click script ran
    without a protocol error and its decoded result is anything but an
    object whose success member is the boolean false: a null result, a
    result that is not an object, and an object without a boolean
    success member all count as a successful click. *)
Theorem ClickElement_succeeds_unless_success_false
    (c : WebDriverClient) (elementID : string) (w w1 : World) (result : value) :
  ExecuteScript c clickScript (Some [VMap [(w3cKey, VString elementID)]]) w = (Ok result, w1) ->
  (forall resultMap, result = VMap resultMap ->
     lookup resultMap "success" <> Some (VBool false)) ->
  fst (ClickElement c elementID w) = None.
Proof.
  intros Hrun Hresult. unfold ClickElement.
  destruct (String.eqb (sessionID c) EmptyString) eqn:Hid.
  - unfold ExecuteScript in Hrun. rewrite Hid in Hrun. discriminate.
  - rewrite Hrun.
    destruct result as [| | | | |resultMap]; try reflexivity.
    specialize (Hresult resultMap eq_refl).
    destruct (lookup resultMap "success") as [[|[|]| | | |]|]; try reflexivity.
    contradiction.
Qed.

End ClickProperties.

Lemma ClickElement_succeeds_unless_success_false_witness :
  let net := scriptedNet [respond 200 (Some (VMap [("value", VNil)]))] [] in
  fst (ClickElement activeClient "node-7" world0) = None.
Proof.
  intros net.
  apply (ClickElement_succeeds_unless_success_false (net := net) activeClient "node-7"
           world0 (mkWorld (5 * Millisecond)%N
                     [executeRequest activeClient clickScript
                        [VMap [(w3cKey, VString "node-7")]]] [])
           VNil eq_refl).
  intros resultMap H. discriminate H.
Defined.

(** A map without a success member, and one whose success member is a
    string, are successful clicks. *)
Example ClickElement_accepts_odd_results :
  fst (ClickElement (net := scriptedNet [respond 200 (Some (VMap [("value", VMap [("error", VString "boom")])]))] [])
                    activeClient "node-7" world0) = None /\
  fst (ClickElement (net := scriptedNet [respond 200 (Some (VMap [("value", VMap [("success", VString "false")])]))] [])
                    activeClient "node-7" world0) = None /\
  fst (ClickElement (net := scriptedNet [respond 200 (Some (VMap [("value", VMap [("success", VBool false)])]))] [])
                    activeClient "node-7" world0)
    = Some (Errorf "click failed: %s" [OStr "unknown error"]).
Proof. repeat split. Qed.

(** ** DeleteSession *)

Section DeleteProperties.
Context {net : Net}.

(** DeleteSession returns no error on any path. *)
Lemma DeleteSession_never_fails (c : WebDriverClient) (w : World) :
  fst (fst (DeleteSession c w)) = None.
Proof.
  unfold DeleteSession.
  destruct (String.eqb (sessionID c) EmptyString); [reflexivity|].
  destruct (NewRequestWithContext _ _ _); [|reflexivity].
  destruct (Do _ _) as [[resp|err] w1]; [|reflexivity].
  destruct (negb _); reflexivity.
Qed.

(** Without a session it sends nothing and logs the warning. *)
Lemma DeleteSession_without_session (c : WebDriverClient) (w : World) :
  sessionID c = EmptyString ->
  DeleteSession c w =
    (None, c,
     mkWorld (now w) (sent w)
       (printed w ++ [LogPrintln "WARN: attempted to delete session, but no active session exists"])).
Proof. intros Hid. unfold DeleteSession. rewrite Hid. reflexivity. Qed.

(** Any response, whatever its status, clears the session identifier. *)
Lemma DeleteSession_clears_on_response (c : WebDriverClient) (w : World) (resp : Response) :
  sessionID c <> EmptyString ->
  requestError "DELETE" (URL (deleteRequest c)) = None ->
  answer (roundTrip w (deleteRequest c)) = Ok resp ->
  sessionID (snd (fst (DeleteSession c w))) = EmptyString.
Proof.
  intros Hid Hreq Hanswer. apply String.eqb_neq in Hid.
  unfold DeleteSession, NewRequestWithContext, Do. rewrite Hid.
  cbn [URL deleteRequest] in Hreq. rewrite Hreq.
  fold (deleteRequest c). rewrite Hanswer.
  destruct (negb _); reflexivity.
Qed.

(** A transport error leaves the session identifier in place. *)
Lemma DeleteSession_keeps_on_transport_error (c : WebDriverClient) (w : World) (err : error) :
  sessionID c <> EmptyString ->
  requestError "DELETE" (URL (deleteRequest c)) = None ->
  answer (roundTrip w (deleteRequest c)) = Err err ->
  DeleteSession c w =
    (None, c, print (LogPrintf ("WARN: failed to delete session: %v" ++ nl) [OErr err])
                    (afterRequest (deleteRequest c) w)).
Proof.
  intros Hid Hreq Hanswer. apply String.eqb_neq in Hid.
  unfold DeleteSession, NewRequestWithContext, Do. rewrite Hid.
  cbn [URL deleteRequest] in Hreq. rewrite Hreq.
  fold (deleteRequest c). rewrite Hanswer. reflexivity.
Qed.

(** So does a request that cannot be built. *)
Lemma DeleteSession_keeps_on_request_error (c : WebDriverClient) (w : World) (err : error) :
  sessionID c <> EmptyString ->
  requestError "DELETE" (URL (deleteRequest c)) = Some err ->
  DeleteSession c w =
    (None, c, print (LogPrintf ("WARN: failed to create delete request: %v" ++ nl) [OErr err]) w).
Proof.
  intros Hid Hreq. apply String.eqb_neq in Hid.
  unfold DeleteSession, NewRequestWithContext. rewrite Hid.
  cbn [URL deleteRequest] in Hreq. rewrite Hreq. reflexivity.
Qed.

End DeleteProperties.

(** C5, at the failing inputs.  The session 5C8E is active.  When the
    transport refuses the DELETE request, and when the request cannot be
    built, DeleteSession logs a warning and returns no error, and the
    client still holds the session identifier 5C8E; a response with
    status 500 clears it. *)
Theorem DeleteSession_keeps_session_after_failed_attempt :
  DeleteSession (net := scriptedNet [refuse] []) activeClient world0
    = (None, activeClient,
       mkWorld 0%N [deleteRequest activeClient]
         [LogPrintf ("WARN: failed to delete session: %v" ++ nl)
                    [OErr (External "dial tcp: connection refused")]]) /\
  DeleteSession (net := scriptedNet [] ["http://localhost:4444/session/5C8E"])
                activeClient world0
    = (None, activeClient,
       mkWorld 0%N []
         [LogPrintf ("WARN: failed to create delete request: %v" ++ nl)
                    [OErr (External "net/url: invalid control character in URL")]]) /\
  DeleteSession (net := scriptedNet [respond 500 None] []) activeClient world0
    = (None, idleClient,
       mkWorld (5 * Millisecond)%N [deleteRequest activeClient]
         [LogPrintf ("WARN: session deletion failed with status: %d" ++ nl) [OInt 500]]) /\
  sessionID activeClient = "5C8E" /\ sessionID idleClient = EmptyString.
Proof. repeat split. Qed.

(** ** The wait engine *)

Section WaitProperties.
Context {net : Net}.

(** Time does not run backwards while a script is executed. *)
Lemma ExecuteScript_clock (c : WebDriverClient) (script : string)
    (args : option (list value)) (w : World) :
  (now w <= now (snd (ExecuteScript c script args w)))%N.
Proof.
  unfold ExecuteScript, NewRequestWithContext, Do.
  destruct (String.eqb (sessionID c) EmptyString); [apply N.le_refl|].
  destruct (requestError _ _); [apply N.le_refl|].
  cbn [fst snd Method URL ContentType Payload SetContentType].
  match goal with
  | |- context [answer ?r] => destruct (answer r) as [resp|err]
  end; [|cbn [snd now]; lia].
  destruct (negb _); [cbn [snd now]; lia|].
  destruct (decodeValue _ _ _); cbn [snd now]; lia.
Qed.

(** One pass of the polling loop. *)
Lemma pollLoop_pass (fuel : nat) (c : WebDriverClient) (script : string)
    (interval deadline : N) (w : World) :
  pollLoop (S fuel) c script interval deadline w =
    if (now w <? deadline)%N then
      match ExecuteScript c script None w with
      | (Err err, w) =>
          (Some (Some (Errorf "failed to execute condition script: %w" [OErr err])), w)
      | (Ok (VBool true), w) => (Some None, w)
      | (Ok _, w) => pollLoop fuel c script interval deadline (Sleep interval w)
      end
    else (Some (Some (Errorf "timeout waiting for condition after 30s" [])), w).
Proof. reflexivity. Qed.

(** The polling loop of pollForCondition returns before its fuel runs
    out: each pass that does not return sleeps for the interval. *)
Lemma pollLoop_fuel (fuel : nat) (c : WebDriverClient) (script : string)
    (interval deadline : N) (w : World) :
  (deadline <= now w + N.of_nat fuel * interval)%N ->
  fst (pollLoop (S fuel) c script interval deadline w) <> None.
Proof.
  revert w. induction fuel as [|fuel IH]; intros w Hfuel; rewrite pollLoop_pass.
  - destruct (N.ltb_spec (now w) deadline); [lia|]. discriminate.
  - destruct (now w <? deadline)%N; [|discriminate].
    pose proof (ExecuteScript_clock c script None w) as Hclock.
    destruct (ExecuteScript c script None w) as [[result|err] w1]; [|discriminate].
    cbn [snd] in Hclock.
    assert (Hnext : (deadline <= now (Sleep interval w1) + N.of_nat fuel * interval)%N)
      by (unfold Sleep; cbn [now]; lia).
    destruct result as [|[|]| | | |]; try discriminate; apply IH, Hnext.
Qed.

(** pollForCondition always returns: its 301 passes cover the 30 second
    timeout at one pass per 100 milliseconds. *)
Lemma pollForCondition_returns (c : WebDriverClient) (script : string) (w : World) :
  exists r, pollLoop 301 c script (100 * Millisecond)%N (now w + 30 * Second)%N w = (Some r, snd (pollForCondition c script w))
            /\ fst (pollForCondition c script w) = r.
Proof.
  unfold pollForCondition.
  pose proof (pollLoop_fuel 300 c script (100 * Millisecond)%N (now w + 30 * Second)%N w) as H.
  destruct (pollLoop 301 c script (100 * Millisecond) (now w + 30 * Second) w) as [[r|] w1].
  - exists r. split; reflexivity.
  - exfalso. apply H; [|reflexivity].
    unfold Second, Millisecond. lia.
Qed.

(** An error of the first script execution ends pollForCondition at
    once, before the deadline. *)
Lemma pollForCondition_aborts (c : WebDriverClient) (script : string) (w w1 : World)
    (err : error) :
  ExecuteScript c script None w = (Err err, w1) ->
  pollForCondition c script w
    = (Some (Errorf "failed to execute condition script: %w" [OErr err]), w1).
Proof.
  intros Hrun. unfold pollForCondition. rewrite pollLoop_pass.
  destruct (N.ltb_spec (now w) (now w + 30 * Second)%N) as [_|Hge].
  - rewrite Hrun. reflexivity.
  - unfold Second, Millisecond in Hge. lia.
Qed.

(** The polling loop of WaitForSelector, whatever the schedule, is still
    waiting, or has returned success, or has returned the timeout error:
    an execution error never ends it. *)
Lemma waitLoop_outcomes (schedule : list Event) (c : WebDriverClient)
    (selector state script : string) (w : World) :
  let r := fst (waitLoop schedule c selector state script w) in
  r = None \/ r = Some None \/
  r = Some (Some (Errorf "timeout waiting for selector '%s' to be %s"
                         [OStr selector; OStr state])).
Proof.
  revert w. induction schedule as [|[|] rest IH]; intros w; cbn [waitLoop].
  - left. reflexivity.
  - right. right. reflexivity.
  - destruct (ExecuteScript c script None w) as [[result|err] w1]; [|apply IH].
    destruct result as [|[|]| | | |]; try apply IH.
    right. left. reflexivity.
Qed.

(** Once the timeout context is done, WaitForSelector has returned. *)
Lemma waitLoop_returns (schedule : list Event) (c : WebDriverClient)
    (selector state script : string) (w : World) :
  In CtxDone schedule ->
  fst (waitLoop schedule c selector state script w) <> None.
Proof.
  revert w. induction schedule as [|[|] rest IH]; intros w Hin; cbn [waitLoop].
  - destruct Hin.
  - discriminate.
  - destruct Hin as [Hin|Hin]; [discriminate|].
    destruct (ExecuteScript c script None w) as [[result|err] w1]; [|apply IH, Hin].
    destruct result as [|[|]| | | |]; try apply IH, Hin.
    discriminate.
Qed.

End WaitProperties.

(** C1, at the failing input.  The session is active and the endpoint
    answers the first poll of the readiness script with status 500.
    pollForCondition returns that execution error after one request and
    5 milliseconds, far from the 30 second deadline, and Navigate with
    waitUntil domcontentloaded returns it in turn; WaitForSelector, given
    the same failing poll, keeps polling and succeeds on the next
    tick. *)
Theorem pollForCondition_returns_execution_error :
  let script := "return document.readyState === 'complete';" in
  let failing := Errorf "script execution failed with status: %d" [OInt 500] in
  pollForCondition (net := scriptedNet [respond 500 None] []) activeClient script world0
    = (Some (Errorf "failed to execute condition script: %w" [OErr failing]),
       mkWorld (5 * Millisecond)%N [executeRequest activeClient script []] []) /\
  fst (Navigate (net := scriptedNet [respond 200 None; respond 500 None] []) activeClient
         "https://example.com" (Some (mkNavigateOptions "domcontentloaded")) world0)
    = Some (Errorf "failed to execute condition script: %w" [OErr failing]) /\
  fst (WaitForSelector
         (net := scriptedNet [respond 500 None; respond 200 (Some (VMap [("value", VBool true)]))] [])
         activeClient "#submit" "attached" [Tick; Tick; CtxDone] world0)
    = Some None.
Proof.
  cbv zeta. split; [|split].
  - apply pollForCondition_aborts. reflexivity.
  - unfold Navigate, waitForDOMContentLoaded. cbn [sessionID activeClient String.eqb Ascii.eqb Bool.eqb].
    vm_compute. reflexivity.
  - vm_compute. reflexivity.
Qed.

(** ** Lookups that match nothing *)

Section LookupProperties.
Context {net : Net}.


End LookupProperties.


(** The same lookups run on scripted endpoints: a 404 answer to the
    singular native command, and null answers to the custom scripts. *)
Example lookups_on_scripted_endpoints :
  (exists err,
     fst (FindElement
            (net := scriptedNet
                      [respond 404 (Some (VMap [("value",
                          VMap [("error", VString "no such element");
                                ("message", VString "no such element")])]))] [])
            activeClient "div.card" world0) = Err err) /\
  fst (FindAllElements (net := scriptedNet [respond 200 (Some (VMap [("value", VNil)]))] [])
                       activeClient "role=dialog" world0) = Ok [] /\
  fst (FindAllElements (net := scriptedNet [respond 200 (Some (VMap [("value", VString "x")]))] [])
                       activeClient "role=dialog" world0) = Ok [] /\
  fst (FindElement (net := scriptedNet [respond 200 (Some (VMap [("value", VNil)]))] [])
                   activeClient "role=dialog" world0) = Err (Errorf "element not found" []).
Proof. split; [eexists; reflexivity | repeat split]. Qed.

(** ** generateWaitScript *)

Lemma append_inv_head (p s1 s2 : string) : p ++ s1 = p ++ s2 -> s1 = s2.
Proof.
  induction p as [|c p IH]; cbn [append]; intros H; [exact H|].
  injection H as H. apply IH, H.
Qed.

(** C8.  For every selector and every state string other than attached,
    detached, visible and hidden, the script generateWaitScript produces
    differs from the one it produces for visible: the default branch
    leaves out the opacity test. *)
Theorem generateWaitScript_unknown_state_differs (selector state : string) :
  state <> "attached" -> state <> "detached" -> state <> "visible" -> state <> "hidden" ->
  generateWaitScript selector state <> generateWaitScript selector "visible".
Proof.
  intros Hattached Hdetached Hvisible Hhidden.
  apply String.eqb_neq in Hattached, Hdetached, Hvisible, Hhidden.
  unfold generateWaitScript.
  rewrite Hattached, Hdetached, Hvisible, Hhidden.
  change (String.eqb "visible" "attached") with false.
  change (String.eqb "visible" "detached") with false.
  change (String.eqb "visible" "visible") with true.
  cbv iota.
  generalize (findElementScript (ParseSelector selector)). intros e H.
  cbn [Sprintf] in H.
  repeat match type of H with
         | String _ _ = String _ _ => injection H as H
         end.
  apply append_inv_head in H.
  apply (f_equal String.length) in H.
  vm_compute in H. discriminate H.
Qed.

Lemma generateWaitScript_unknown_state_differs_witness :
  generateWaitScript "#main" "ready" <> generateWaitScript "#main" "visible".
Proof.
  apply generateWaitScript_unknown_state_differs; discriminate.
Defined.

(** The script for visible tests the opacity; the script for an unknown
    state does not mention it. *)
Example generateWaitScript_opacity :
  String.index 0 "opacity" (generateWaitScript "#main" "visible") <> None /\
  String.index 0 "opacity" (generateWaitScript "#main" "ready") = None /\
  String.index 0 "opacity" (generateWaitScript "text=Save" "enabled") = None.
Proof. vm_compute. repeat split. discriminate. Qed.

(** ** Loops *)

Lemma range_In (lo hi i : Z) : In i (range lo hi) <-> lo <= i < hi.
Proof.
  unfold range. rewrite in_map_iff. split.
  - intros (k & <- & Hk). apply in_seq in Hk. lia.
  - intros Hi. exists (Z.to_nat (i - lo)). split; [lia|].
    apply in_seq. lia.
Qed.

Lemma range_length (lo hi : Z) : List.length (range lo hi) = Z.to_nat (hi - lo).
Proof. unfold range. rewrite length_map, length_seq. reflexivity. Qed.

(** A property kept by every pass of a loop holds when the loop ends. *)
Lemma for_invariant {S : Type} (P : S -> Prop) (lo hi : Z) (body : Z -> S -> S) (s : S) :
  P s ->
  (forall i t, lo <= i < hi -> P t -> P (body i t)) ->
  P (for_ lo hi body s).
Proof.
  unfold for_. intros Hs Hbody.
  assert (Hin : forall i, In i (range lo hi) -> lo <= i < hi) by (intros i; apply range_In).
  revert s Hs. induction (range lo hi) as [|i l IH]; intros s Hs; cbn [fold_left].
  - exact Hs.
  - apply IH.
    + intros j Hj. apply Hin. right. exact Hj.
    + apply Hbody; [apply Hin; left; reflexivity | exact Hs].
Qed.


(** ** Image comparison *)





(** Transparent black against opaque white is a maximal difference in
    every pixel format; the channels compared are alpha-premultiplied,
    so the stored colour of a fully transparent pixel does not count. *)
Lemma maximallyDifferent_black_white :
  maximallyDifferent (RGBA 0 0 0 0) (RGBA 255 255 255 255) /\
  maximallyDifferent (NRGBA 0 0 0 0) (NRGBA 255 255 255 255) /\
  maximallyDifferent (RGBA64 0 0 0 0) (RGBA64 65535 65535 65535 65535) /\
  maximallyDifferent (NRGBA64 0 0 0 0) (NRGBA64 65535 65535 65535 65535) /\
  maximallyDifferent (NRGBA 255 255 255 0) (RGBA 255 255 255 255) /\
  channels8 (NRGBA 255 255 255 0) = (0, 0, 0, 0).
Proof. unfold maximallyDifferent, opposite. cbn. intuition auto. Qed.




(** Writing a pixel keeps the bounds, and so does scaling. *)
Lemma Set_Bounds (img : Image) (x y : Z) (c : Color) : Bounds (Set_ img x y c) = Bounds img.
Proof. unfold Set_. destruct (inRect _ _ _); reflexivity. Qed.

Lemma scaleImage_Bounds (src : Image) (targetWidth targetHeight : Z) :
  Bounds (scaleImage src targetWidth targetHeight) = Rect 0 0 targetWidth targetHeight.
Proof.
  unfold scaleImage.
  apply (for_invariant (fun dst => Bounds dst = Rect 0 0 targetWidth targetHeight));
    [reflexivity|].
  intros y dst _ Hdst.
  apply (for_invariant (fun dst => Bounds dst = Rect 0 0 targetWidth targetHeight));
    [exact Hdst|].
  intros x dst' _ Hdst'. rewrite Set_Bounds. exact Hdst'.
Qed.



(** Filling a row, then all rows, of an RGBA image. *)
Lemma fill_row_Bounds (g : Z -> Color) (y : Z) (xs : list Z) (dst : Image) :
  Bounds (fold_left (fun dst x => Set_ dst x y (g x)) xs dst) = Bounds dst.
Proof.
  revert dst. induction xs as [|a xs IH]; intros dst; cbn [fold_left]; [reflexivity|].
  rewrite IH. apply Set_Bounds.
Qed.

Lemma fill_row_At (g : Z -> Color) (y : Z) (xs : list Z) (dst : Image) (x' y' : Z) :
  At (fold_left (fun dst x => Set_ dst x y (g x)) xs dst) x' y' =
    if existsb (Z.eqb x') xs && (y' =? y) && inRect (Bounds dst) x' y'
    then RGBAModel (g x') else At dst x' y'.
Proof.
  revert dst. induction xs as [|a xs IH]; intros dst; cbn [fold_left existsb].
  - reflexivity.
  - rewrite IH, Set_Bounds. unfold Set_.
    destruct (existsb (Z.eqb x') xs && (y' =? y) && inRect (Bounds dst) x' y') eqn:Hlater.
    + apply andb_prop in Hlater as [Hlater Hin]. apply andb_prop in Hlater as [Hxs Hy].
      rewrite Hxs, Hy, Hin, orb_true_r. reflexivity.
    + destruct (Z.eqb_spec x' a) as [Hx|Hx]; cbn [orb].
      * subst a. destruct (Z.eqb_spec y' y) as [Hy|Hy].
        -- subst y'. cbn [andb].
           destruct (inRect (Bounds dst) x' y); cbn [At]; [|reflexivity].
           rewrite !Z.eqb_refl. reflexivity.
        -- cbn [andb].
           destruct (inRect (Bounds dst) x' y); cbn [At]; [|reflexivity].
           destruct (Z.eqb_spec y' y); [contradiction|]. rewrite andb_false_r. reflexivity.
      * rewrite Hlater.
        destruct (inRect (Bounds dst) a y); cbn [At]; [|reflexivity].
        destruct (Z.eqb_spec x' a); [contradiction|]. reflexivity.
Qed.

Lemma fill_At (g : Z -> Z -> Color) (xs ys : list Z) (dst : Image) (x' y' : Z) :
  At (fold_left (fun dst y => fold_left (fun dst x => Set_ dst x y (g x y)) xs dst) ys dst)
     x' y' =
    if existsb (Z.eqb x') xs && existsb (Z.eqb y') ys && inRect (Bounds dst) x' y'
    then RGBAModel (g x' y') else At dst x' y'.
Proof.
  revert dst. induction ys as [|b ys IH]; intros dst; cbn [fold_left existsb].
  - rewrite andb_false_r. reflexivity.
  - rewrite IH.
    rewrite (fill_row_Bounds (fun x => g x b)), (fill_row_At (fun x => g x b)).
    destruct (existsb (Z.eqb x') xs); cbn [andb]; [|reflexivity].
    destruct (Z.eqb_spec y' b) as [->|Hy]; cbn [orb andb].
    + destruct (inRect (Bounds dst) x' b);
        rewrite ?andb_false_r, ?andb_true_r; [|reflexivity].
      destruct (existsb (Z.eqb b) ys); reflexivity.
    + reflexivity.
Qed.

Lemma existsb_range (lo hi i : Z) : lo <= i < hi -> existsb (Z.eqb i) (range lo hi) = true.
Proof.
  intros Hi. apply existsb_exists. exists i. split; [apply range_In, Hi | apply Z.eqb_refl].
Qed.


Section CompareProperties.
Context {codec : Codec}.


End CompareProperties.


(** The scores of three pairs of swatches: the same image twice, black
    transparent against white opaque, and images of different
    dimensions. *)
Example CompareImages_on_swatches :
  (exists s, CompareImages (codec := swatchCodec)
               [x02; x02; x10; x20; x30; xff] [x02; x02; x10; x20; x30; xff] = Ok s
             /\ Qred s = 1%Q) /\
  (exists s, CompareImages (codec := swatchCodec)
               [x02; x02; x00; x00; x00; x00] [x02; x02; xff; xff; xff; xff] = Ok s
             /\ Qred s = 0%Q) /\
  (exists s, CompareImages (codec := swatchCodec)
               [x03; x02; x00; x00; x00; xff] [x01; x01; x00; x00; x00; xff] = Ok s
             /\ Qred s = 1%Q).
Proof. repeat split; eexists; split; try reflexivity; vm_compute; reflexivity. Qed.

(** ** PixelDifferenceCount *)

(** On values that fit, the conversion to int32 changes nothing. *)
Lemma int32_small (x : Z) : -2147483648 <= x < 2147483648 -> int32 x = x.
Proof. intros Hx. unfold int32. rewrite Z.mod_small by lia. lia. Qed.

Lemma abs32_small (x : Z) : -2147483648 < x < 2147483648 -> abs32 x = Z.abs x.
Proof.
  intros Hx. unfold abs32.
  destruct (Z.ltb_spec x 0); [rewrite int32_small by lia|]; lia.
Qed.

(** PixelDifferenceCount compares the 16-bit channels that
    [Color_RGBA] returns with the threshold, not their 8-bit values. *)
Lemma pixelDiffers_16bit (c1 c2 : Color) (threshold : Z) :
  let '(r1, g1, b1, a1) := Color_RGBA c1 in
  let '(r2, g2, b2, a2) := Color_RGBA c2 in
  0 <= r1 <= 65535 -> 0 <= g1 <= 65535 -> 0 <= b1 <= 65535 -> 0 <= a1 <= 65535 ->
  0 <= r2 <= 65535 -> 0 <= g2 <= 65535 -> 0 <= b2 <= 65535 -> 0 <= a2 <= 65535 ->
  0 <= threshold < 2147483648 ->
  pixelDiffers c1 c2 threshold = true <->
  Z.abs (r1 - r2) > threshold \/ Z.abs (g1 - g2) > threshold \/
  Z.abs (b1 - b2) > threshold \/ Z.abs (a1 - a2) > threshold.
Proof.
  unfold pixelDiffers.
  destruct (Color_RGBA c1) as [[[r1 g1] b1] a1].
  destruct (Color_RGBA c2) as [[[r2 g2] b2] a2].
  intros Hr1 Hg1 Hb1 Ha1 Hr2 Hg2 Hb2 Ha2 Ht.
  rewrite !(int32_small r1), !(int32_small g1), !(int32_small b1), !(int32_small a1),
    !(int32_small r2), !(int32_small g2), !(int32_small b2), !(int32_small a2),
    !(int32_small threshold) by lia.
  rewrite !int32_small by lia. rewrite !abs32_small by lia.
  rewrite !orb_true_iff, !Z.gtb_ltb, !Z.ltb_lt. lia.
Qed.

(** C4, at the failing inputs.  Two decodable images of one pixel each.
    Black against white, both opaque: the 8-bit channels differ by 255,
    which does not exceed the threshold 255, yet PixelDifferenceCount
    returns 1.  Two opaque greys whose 8-bit channels differ by 1: the
    pixel is counted with threshold 1 and with threshold 255 as well,
    and no longer with threshold 257, the difference of the 16-bit
    channels the function compares. *)
Theorem PixelDifferenceCount_compares_16bit_channels :
  let black := [x01; x01; x00; x00; x00; xff] in
  let white := [x01; x01; xff; xff; xff; xff] in
  let grey10 := [x01; x01; x0a; x0a; x0a; xff] in
  let grey11 := [x01; x01; x0b; x0b; x0b; xff] in
  channels8 (NRGBA 0 0 0 255) = (0, 0, 0, 255) /\
  channels8 (NRGBA 255 255 255 255) = (255, 255, 255, 255) /\
  PixelDifferenceCount (codec := swatchCodec) black white 255 = Ok 1 /\
  channels8 (NRGBA 10 10 10 255) = (10, 10, 10, 255) /\
  channels8 (NRGBA 11 11 11 255) = (11, 11, 11, 255) /\
  PixelDifferenceCount (codec := swatchCodec) grey10 grey11 1 = Ok 1 /\
  PixelDifferenceCount (codec := swatchCodec) grey10 grey11 255 = Ok 1 /\
  PixelDifferenceCount (codec := swatchCodec) grey10 grey11 257 = Ok 0.
Proof. cbv zeta. repeat split. Qed.

(* ================================================================== *)
(** * Further properties *)
(* ================================================================== *)

(** ** Requests of the script runner *)

Section ScriptRunner.
Context {net : Net}.

(** What ExecuteScript does to the world: nothing without a session or
    when the request cannot be built, one request otherwise. *)
Lemma ExecuteScript_world (c : WebDriverClient) (script : string)
    (args : option (list value)) (w : World) :
  snd (ExecuteScript c script args w) =
    if String.eqb (sessionID c) EmptyString then w
    else match requestError "POST" (URL (executeRequest c script (sentArgs args))) with
         | Some _ => w
         | None => afterRequest (executeRequest c script (sentArgs args)) w
         end.
Proof.
  unfold ExecuteScript, NewRequestWithContext, Do, SetContentType.
  destruct (String.eqb (sessionID c) EmptyString); [reflexivity|].
  cbn [URL executeRequest].
  destruct (requestError "POST" _); [reflexivity|].
  cbn [Method URL ContentType Payload].
  fold (sentArgs args). fold (executeRequest c script (sentArgs args)).
  fold (afterRequest (executeRequest c script (sentArgs args)) w).
  destruct (answer _) as [resp|err]; [|reflexivity].
  destruct (negb _); [reflexivity|].
  destruct (decodeValue _ _ _); reflexivity.
Qed.

(** Either way the requests sent grow by at most that one request, and
    the log is untouched. *)
Lemma ExecuteScript_sent (c : WebDriverClient) (script : string)
    (args : option (list value)) (w : World) :
  let w' := snd (ExecuteScript c script args w) in
  printed w' = printed w /\
  (sent w' = sent w \/ sent w' = (sent w ++ [executeRequest c script (sentArgs args)])%list).
Proof.
  cbv zeta. rewrite ExecuteScript_world.
  destruct (String.eqb (sessionID c) EmptyString); [auto|].
  destruct (requestError _ _); [auto|].
  split; [reflexivity | right; reflexivity].
Qed.

(** X1.  ExecuteScript with an active session, whenever the request can
    be built, hands exactly one request to the transport, whatever the
    outcome: a POST to the session's execute/sync endpoint whose payload
    holds the script and the arguments as an array (the empty array for
    nil arguments, never omitted).  A status other than 200 whose body
    carries value.message yields an error with the status and that
    message. *)
Theorem ExecuteScript_one_request (c : WebDriverClient) (script : string)
    (args : option (list value)) (w : World) :
  sessionID c <> EmptyString ->
  let req := executeRequest c script (sentArgs args) in
  requestError (Method req) (URL req) = None ->
  snd (ExecuteScript c script args w) = afterRequest req w /\
  Payload req = Some (VMap [("args", VArray (sentArgs args)); ("script", VString script)]) /\
  (forall resp members detail message,
     answer (roundTrip w req) = Ok resp ->
     StatusCode resp <> 200 ->
     Body resp = Some (VMap members) ->
     lookup members "value" = Some (VMap detail) ->
     lookup detail "message" = Some (VString message) ->
     fst (ExecuteScript c script args w)
       = Err (Errorf "script execution failed with status %d: %s"
                     [OInt (StatusCode resp); OStr message])).
Proof.
  intros Hid req Hreq. apply String.eqb_neq in Hid.
  split; [|split].
  - rewrite ExecuteScript_world, Hid.
    change (requestError "POST" (URL (executeRequest c script (sentArgs args))))
      with (requestError (Method req) (URL req)).
    rewrite Hreq. reflexivity.
  - reflexivity.
  - intros resp members detail message Hanswer Hstatus Hbody Hvalue Hmessage.
    apply Z.eqb_neq in Hstatus.
    unfold ExecuteScript, NewRequestWithContext, Do, SetContentType. rewrite Hid.
    change (requestError "POST" (baseURL c ++ "/session/" ++ sessionID c ++ "/execute/sync"))
      with (requestError (Method req) (URL req)).
    rewrite Hreq. cbn [Method URL ContentType Payload].
    fold (sentArgs args). fold (executeRequest c script (sentArgs args)). fold req.
    rewrite Hanswer, Hstatus. cbn [negb fst].
    unfold scriptStatusError, decodeMap. rewrite Hbody, Hvalue, Hmessage. reflexivity.
Qed.

End ScriptRunner.

Lemma ExecuteScript_one_request_witness :
  let net := scriptedNet
               [respond 500 (Some (VMap [("value", VMap [("message", VString "boom")])]))] [] in
  ExecuteScript activeClient "return 1" None world0
    = (Err (Errorf "script execution failed with status %d: %s" [OInt 500; OStr "boom"]),
       mkWorld (5 * Millisecond)%N [executeRequest activeClient "return 1" []] []).
Proof.
  intros net.
  destruct (ExecuteScript_one_request (net := net) activeClient "return 1" None world0)
    as (Hworld & _ & Hmessage); [discriminate | reflexivity |].
  specialize (Hmessage _ _ _ "boom" eq_refl ltac:(discriminate) eq_refl eq_refl eq_refl).
  rewrite (surjective_pairing (ExecuteScript activeClient "return 1" None world0)).
  rewrite Hworld, Hmessage. reflexivity.
Defined.

(** ** The wait engine, continued *)

Section WaitEngine.
Context {net : Net}.

(** The requests of the polling loop of WaitForSelector: at most one per
    tick, each the execution of the wait script; nothing is logged. *)
Lemma waitLoop_requests (schedule : list Event) (c : WebDriverClient)
    (selector state script : string) (w : World) :
  let w' := snd (waitLoop schedule c selector state script w) in
  printed w' = printed w /\
  exists polls,
    (polls <= ticksBeforeDone schedule)%nat /\
    sent w' = (sent w ++ repeat (executeRequest c script []) polls)%list.
Proof.
  cbv zeta. revert w. induction schedule as [|[|] rest IH]; intros w; cbn [waitLoop ticksBeforeDone].
  - split; [reflexivity|]. exists O. split; [lia|]. cbn. rewrite app_nil_r. reflexivity.
  - split; [reflexivity|]. exists O. split; [lia|]. cbn. rewrite app_nil_r. reflexivity.
  - pose proof (ExecuteScript_sent c script None w) as [Hprinted Hsent].
    destruct (ExecuteScript c script None w) as [r w1]. cbn [snd sentArgs] in Hprinted, Hsent.
    assert (Hone : exists k, (k <= 1)%nat /\
                     sent w1 = (sent w ++ repeat (executeRequest c script []) k)%list).
    { destruct Hsent as [Hsent|Hsent]; [exists O | exists 1%nat];
        (split; [lia|]); rewrite Hsent; cbn; rewrite ?app_nil_r; reflexivity. }
    destruct Hone as (k & Hk & Hw1).
    assert (Hrest : printed (snd (waitLoop rest c selector state script w1)) = printed w /\
                    exists polls,
                      (polls <= S (ticksBeforeDone rest))%nat /\
                      sent (snd (waitLoop rest c selector state script w1))
                        = (sent w ++ repeat (executeRequest c script []) polls)%list).
    { destruct (IH w1) as (Hp & polls & Hpolls & Hs). split; [congruence|].
      exists (k + polls)%nat. split; [lia|].
      rewrite Hs, Hw1, repeat_app, app_assoc. reflexivity. }
    assert (Hstop : printed w1 = printed w /\
                    exists polls,
                      (polls <= S (ticksBeforeDone rest))%nat /\
                      sent w1 = (sent w ++ repeat (executeRequest c script []) polls)%list).
    { split; [exact Hprinted|]. exists k. split; [lia | exact Hw1]. }
    destruct r as [[|[|]| | | |]|err]; cbn [snd]; assumption.
Qed.

(** X2.  WaitForSelector never returns a script execution error.
    Whatever the endpoint answers and whatever the schedule, it is still
    waiting, or it has returned nil, the no-active-session error or the
    timeout error that names the selector and the state; and once the
    timeout context is done it has returned. *)
Theorem WaitForSelector_outcomes (c : WebDriverClient) (selector state : string)
    (schedule : list Event) (w : World) :
  let r := fst (WaitForSelector c selector state schedule w) in
  (r = None \/ r = Some None \/ r = Some (Some no_active_session) \/
   r = Some (Some (waitTimeout selector state))) /\
  (In CtxDone schedule -> r <> None).
Proof.
  cbv zeta. unfold WaitForSelector.
  destruct (String.eqb (sessionID c) EmptyString).
  - split; [right; right; left; reflexivity | discriminate].
  - split.
    + pose proof (waitLoop_outcomes schedule c selector state
                    (generateWaitScript selector state) w) as H.
      cbv zeta in H. unfold waitTimeout. intuition auto.
    + apply waitLoop_returns.
Qed.

(** X3.  WaitForSelector only polls: every request it hands to the
    transport is the execution of the wait script of its selector and
    state with no arguments, there is at most one per tick delivered
    before the timeout, and it logs nothing. *)
Theorem WaitForSelector_polls_once_per_tick (c : WebDriverClient) (selector state : string)
    (schedule : list Event) (w : World) :
  let w' := snd (WaitForSelector c selector state schedule w) in
  printed w' = printed w /\
  exists polls,
    (polls <= ticksBeforeDone schedule)%nat /\
    sent w' = (sent w ++ repeat (executeRequest c (generateWaitScript selector state) [])
                                polls)%list.
Proof.
  cbv zeta. unfold WaitForSelector.
  destruct (String.eqb (sessionID c) EmptyString).
  - split; [reflexivity|]. exists O. split; [lia|]. cbn. rewrite app_nil_r. reflexivity.
  - apply waitLoop_requests.
Qed.

(** The polling loop of pollForCondition: the clock only advances, no
    more polls are made than intervals fit before the deadline, and the
    timeout error is returned at or after the deadline only. *)
Lemma pollLoop_run (fuel n : nat) (c : WebDriverClient) (script : string)
    (interval deadline : N) (w : World) :
  (deadline <= now w + N.of_nat n * interval)%N ->
  let run := pollLoop fuel c script interval deadline w in
  (now w <= now (snd run))%N /\
  printed (snd run) = printed w /\
  (exists polls,
     (polls <= n)%nat /\
     sent (snd run) = (sent w ++ repeat (executeRequest c script []) polls)%list) /\
  (fst run = Some (Some pollTimeout) -> (deadline <= now (snd run))%N).
Proof.
  cbv zeta. revert n w. induction fuel as [|fuel IH]; intros n w Hdeadline.
  - cbn [pollLoop fst snd]. repeat split; try lia; try discriminate.
    exists O. split; [lia|]. cbn. rewrite app_nil_r. reflexivity.
  - rewrite pollLoop_pass.
    destruct (N.ltb_spec (now w) deadline) as [Hbefore|Hafter].
    + destruct n as [|n]; [cbn in Hdeadline; lia|].
      pose proof (ExecuteScript_clock c script None w) as Hclock.
      pose proof (ExecuteScript_sent c script None w) as [Hprinted Hsent].
      destruct (ExecuteScript c script None w) as [r w1].
      cbn [snd sentArgs] in Hclock, Hprinted, Hsent.
      assert (Hone : exists k, (k <= 1)%nat /\
                       sent w1 = (sent w ++ repeat (executeRequest c script []) k)%list).
      { destruct Hsent as [Hsent|Hsent]; [exists O | exists 1%nat];
          (split; [lia|]); rewrite Hsent; cbn; rewrite ?app_nil_r; reflexivity. }
      destruct Hone as (k & Hk & Hw1).
      assert (Hstop : forall r0 : option (option error),
                 r0 <> Some (Some pollTimeout) ->
                 (now w <= now (snd (r0, w1)))%N /\
                 printed (snd (r0, w1)) = printed w /\
                 (exists polls,
                    (polls <= S n)%nat /\
                    sent (snd (r0, w1))
                      = (sent w ++ repeat (executeRequest c script []) polls)%list) /\
                 (fst (r0, w1) = Some (Some pollTimeout) -> (deadline <= now (snd (r0, w1)))%N)).
      { intros r0 Hr0. cbn [fst snd]. repeat split; try assumption.
        - exists k. split; [lia | exact Hw1].
        - intros H. contradiction. }
      assert (Hnext : (now w <= now (snd (pollLoop fuel c script interval deadline
                                                   (Sleep interval w1))))%N /\
                      printed (snd (pollLoop fuel c script interval deadline
                                             (Sleep interval w1))) = printed w /\
                      (exists polls,
                         (polls <= S n)%nat /\
                         sent (snd (pollLoop fuel c script interval deadline
                                             (Sleep interval w1)))
                           = (sent w ++ repeat (executeRequest c script []) polls)%list) /\
                      (fst (pollLoop fuel c script interval deadline (Sleep interval w1))
                         = Some (Some pollTimeout) ->
                       (deadline <= now (snd (pollLoop fuel c script interval deadline
                                                       (Sleep interval w1))))%N)).
      { destruct (IH n (Sleep interval w1)) as (Hc & Hp & (polls & Hpolls & Hs) & Ht).
        - unfold Sleep. cbn [now]. lia.
        - change (now (Sleep interval w1)) with (now w1 + interval)%N in Hc.
          change (printed (Sleep interval w1)) with (printed w1) in Hp.
          change (sent (Sleep interval w1)) with (sent w1) in Hs.
          repeat split.
          + lia.
          + congruence.
          + exists (k + polls)%nat. split; [lia|].
            rewrite Hs, Hw1, repeat_app, app_assoc. reflexivity.
          + exact Ht. }
      destruct r as [[|[|]| | | |]|err];
        try exact Hnext; apply Hstop; discriminate.
    + cbn [fst snd]. repeat split; try lia.
      exists O. split; [lia|]. cbn. rewrite app_nil_r. reflexivity.
Qed.

(** The clock never runs backwards during pollForCondition. *)
Lemma pollForCondition_clock (c : WebDriverClient) (script : string) (w : World) :
  (now w <= now (snd (pollForCondition c script w)))%N.
Proof.
  unfold pollForCondition.
  assert (Hdeadline : (now w + 30 * Second
                       <= now w + N.of_nat 300 * (100 * Millisecond))%N)
    by (unfold Second, Millisecond; lia).
  pose proof (pollLoop_run 301 300 c script (100 * Millisecond)%N (now w + 30 * Second)%N w
                Hdeadline) as Hrun.
  cbv zeta in Hrun.
  destruct (pollLoop 301 c script (100 * Millisecond) (now w + 30 * Second) w) as [[r|] w1];
    cbn [fst snd] in *; apply Hrun.
Qed.

(** X4.  pollForCondition is bounded: it makes at most 300 polls, each
    the execution of the condition script with no arguments, logs
    nothing, and returns its timeout error only once 30 seconds have
    passed on the clock since it was called. *)
Theorem pollForCondition_bounded (c : WebDriverClient) (script : string) (w : World) :
  let run := pollForCondition c script w in
  (now w <= now (snd run))%N /\
  printed (snd run) = printed w /\
  (exists polls,
     (polls <= 300)%nat /\
     sent (snd run) = (sent w ++ repeat (executeRequest c script []) polls)%list) /\
  (fst run = Some pollTimeout -> (now w + 30 * Second <= now (snd run))%N).
Proof.
  cbv zeta. unfold pollForCondition.
  assert (Hdeadline : (now w + 30 * Second
                       <= now w + N.of_nat 300 * (100 * Millisecond))%N)
    by (unfold Second, Millisecond; lia).
  pose proof (pollLoop_run 301 300 c script (100 * Millisecond)%N (now w + 30 * Second)%N w
                Hdeadline) as Hrun.
  pose proof (pollLoop_fuel 300 c script (100 * Millisecond)%N (now w + 30 * Second)%N w
                Hdeadline) as Hfuel.
  cbv zeta in Hrun.
  destruct (pollLoop 301 c script (100 * Millisecond) (now w + 30 * Second) w) as [[r|] w1].
  - cbn [fst snd] in *. destruct Hrun as (Hc & Hp & Hs & Ht).
    repeat split; try assumption.
    intros ->. apply Ht. reflexivity.
  - exfalso. apply Hfuel. reflexivity.
Qed.

(** X5.  waitForNetworkIdle adds the settle delay to a successful wait
    only: when it returns nil at least 500 milliseconds have passed, and
    an error of the readiness poll is returned as it is. *)
Theorem waitForNetworkIdle_settles (c : WebDriverClient) (w : World) :
  let ready := pollForCondition c "return document.readyState === 'complete';" w in
  let run := waitForNetworkIdle c w in
  (fst run = None ->
   fst ready = None /\
   now (snd run) = (now (snd ready) + 500 * Millisecond)%N /\
   (now w + 500 * Millisecond <= now (snd run))%N) /\
  (forall err, fst ready = Some err -> run = ready).
Proof.
  cbv zeta. unfold waitForNetworkIdle.
  pose proof (pollForCondition_clock c "return document.readyState === 'complete';" w)
    as Hclock.
  destruct (pollForCondition c "return document.readyState === 'complete';" w) as [[err|] w1];
    cbn [fst snd] in *.
  - split; [discriminate|]. intros err' _. reflexivity.
  - split; [|discriminate]. intros _.
    unfold Sleep. cbn [now]. repeat split. lia.
Qed.

End WaitEngine.

(** ** The life of a session *)

Section SessionLife.
Context {net : Net}.

(** CreateSession by the cases of the source. *)
Lemma CreateSession_run (c : WebDriverClient) (capabilities : list (string * value))
    (w : World) :
  CreateSession c capabilities w =
    match requestError "POST" (baseURL c ++ "/session") with
    | Some err => (Err (Errorf "failed to create request: %w" [OErr err]), c, w)
    | None =>
        let req := createRequest c capabilities in
        match answer (roundTrip w req) with
        | Err err =>
            (Err (Errorf "failed to create session: %w" [OErr err]), c, afterRequest req w)
        | Ok resp =>
            if negb (StatusCode resp =? 200) then
              (Err (Errorf "session creation failed with status: %d" [OInt (StatusCode resp)]),
               c, afterRequest req w)
            else
              match decodeValue into_WebDriverSession (mkSession EmptyString []) (Body resp) with
              | Err err =>
                  (Err (Errorf "failed to decode session response: %w" [OErr err]),
                   c, afterRequest req w)
              | Ok session =>
                  (Ok session, mkClient (baseURL c) (SessionID session), afterRequest req w)
              end
        end
    end.
Proof.
  unfold CreateSession, NewRequestWithContext, Do, SetContentType.
  destruct (requestError "POST" _); [reflexivity|].
  cbn [Method URL ContentType Payload]. cbv zeta.
  fold (createRequest c capabilities).
  fold (afterRequest (createRequest c capabilities) w).
  destruct (answer _) as [resp|err]; reflexivity.
Qed.

(** A member list without a key for the field leaves the field as it is. *)
Lemma into_field_runes_absent {T : Type} (into : value -> T -> option T) (name : string)
    (members : list (string * value)) (cur : T) :
  (forall k v, In (k, v) members -> foldNameRunes k <> foldNameRunes name) ->
  into_field_runes into name members cur = Some cur.
Proof.
  induction members as [|[k v] rest IH]; intros Habsent; cbn [into_field_runes].
  - reflexivity.
  - destruct (String.eqb_spec (foldNameRunes k) (foldNameRunes name)) as [Heq|_].
    + exfalso. exact (Habsent k v (or_introl eq_refl) Heq).
    + apply IH. intros k' v' Hin. apply (Habsent k' v'). right. exact Hin.
Qed.

(** Members that are objects or null wherever they address the field
    decode into a map. *)
Lemma into_field_runes_map (name : string) (members : list (string * value))
    (cur : list (string * value)) :
  (forall k v, In (k, v) members -> foldNameRunes k = foldNameRunes name ->
               v = VNil \/ exists m, v = VMap m) ->
  exists caps, into_field_runes into_map name members cur = Some caps.
Proof.
  revert cur. induction members as [|[k v] rest IH]; intros cur Hobjects;
    cbn [into_field_runes].
  - exists cur. reflexivity.
  - assert (Hrest : forall k' v', In (k', v') rest ->
                      foldNameRunes k' = foldNameRunes name ->
                      v' = VNil \/ exists m, v' = VMap m).
    { intros k' v' Hin. apply (Hobjects k' v'). right. exact Hin. }
    destruct (String.eqb_spec (foldNameRunes k) (foldNameRunes name)) as [Heq|_].
    + destruct (Hobjects k v (or_introl eq_refl) Heq) as [->|[m ->]]; cbn [into_map];
        apply IH; exact Hrest.
    + apply IH. exact Hrest.
Qed.

(** X6.  CreateSession neither needs nor cleans up earlier state.  It
    hands at most one request to the transport, the POST of the
    capabilities under alwaysMatch to the session endpoint, also when
    the client already holds a session, and it logs nothing.  When it
    fails the client is as before, an earlier session identifier
    included; when it succeeds the client holds the identifier of the
    session it returns. *)
Theorem CreateSession_replaces_identifier (c : WebDriverClient)
    (capabilities : list (string * value)) (w : World) :
  let '(r, c', w') := CreateSession c capabilities w in
  baseURL c' = baseURL c /\
  (forall err, r = Err err -> c' = c) /\
  (forall session, r = Ok session -> sessionID c' = SessionID session) /\
  (sent w' = sent w \/ sent w' = (sent w ++ [createRequest c capabilities])%list) /\
  printed w' = printed w.
Proof.
  rewrite CreateSession_run.
  destruct (requestError "POST" _).
  { repeat split; auto; discriminate. }
  cbv zeta. destruct (answer _) as [resp|err].
  - destruct (negb _).
    + repeat split; auto; discriminate.
    + destruct (decodeValue _ _ _) as [session|err].
      * repeat split; auto; try discriminate. intros s [= <-]. reflexivity.
      * repeat split; auto; discriminate.
  - repeat split; auto; discriminate.
Qed.

(** X7.  A 200 answer that names no session is accepted.  When the
    value object of the answer has no sessionId member in any spelling
    of letter case, and its capabilities members are objects or null,
    CreateSession returns a session without error whose identifier is
    empty, and leaves the client without an active session, whatever
    identifier it held before. *)
Theorem CreateSession_accepts_missing_identifier (c : WebDriverClient)
    (capabilities : list (string * value)) (w : World) (resp : Response)
    (members : list (string * value)) :
  requestError "POST" (baseURL c ++ "/session") = None ->
  answer (roundTrip w (createRequest c capabilities)) = Ok resp ->
  StatusCode resp = 200 ->
  Body resp = Some (VMap [("value", VMap members)]) ->
  (forall k v, In (k, v) members ->
     foldNameRunes k <> "SESSIONID" /\
     (foldNameRunes k = "CAPABILITIES" -> v = VNil \/ exists m, v = VMap m)) ->
  exists caps,
    CreateSession c capabilities w =
      (Ok (mkSession EmptyString caps), mkClient (baseURL c) EmptyString,
       afterRequest (createRequest c capabilities) w).
Proof.
  intros Hreq Hanswer Hstatus Hbody Hmembers.
  rewrite CreateSession_run, Hreq. cbv zeta. rewrite Hanswer, Hstatus, Hbody.
  cbn [Z.eqb Pos.eqb negb decodeValue into_field].
  change (fieldMatch "value" "value") with true. cbv iota.
  cbn [into_WebDriverSession SessionID Capabilities].
  rewrite (into_field_runes_absent into_string "sessionId" members EmptyString)
    by (intros k v Hin; apply (Hmembers k v Hin)).
  destruct (into_field_runes_map "capabilities" members []) as [caps Hcaps].
  { intros k v Hin Hkey. apply (Hmembers k v Hin). exact Hkey. }
  rewrite Hcaps. exists caps. reflexivity.
Qed.

(** The requests and the identifier of DeleteSession: at most one
    request, the DELETE of the current session; the identifier is kept
    or emptied. *)
Lemma DeleteSession_effect (c : WebDriverClient) (w : World) :
  let '(_, c', w') := DeleteSession c w in
  baseURL c' = baseURL c /\
  (sessionID c' = sessionID c \/ sessionID c' = EmptyString) /\
  (sent w' = sent w \/
   sessionID c <> EmptyString /\ sent w' = (sent w ++ [deleteRequest c])%list).
Proof.
  unfold DeleteSession, NewRequestWithContext, Do.
  destruct (String.eqb_spec (sessionID c) EmptyString) as [Hid|Hid].
  { cbn. auto. }
  destruct (requestError "DELETE" _).
  { cbn. auto. }
  fold (deleteRequest c).
  destruct (answer _) as [resp|err].
  - destruct (negb _); cbn; auto.
  - cbn. auto.
Qed.

(** When the endpoint answers, the request was sent and the identifier
    is emptied. *)
Lemma DeleteSession_answered (c : WebDriverClient) (w : World) (resp : Response) :
  sessionID c <> EmptyString ->
  requestError "DELETE" (URL (deleteRequest c)) = None ->
  answer (roundTrip w (deleteRequest c)) = Ok resp ->
  exists w',
    DeleteSession c w = (None, mkClient (baseURL c) EmptyString, w') /\
    sent w' = (sent w ++ [deleteRequest c])%list.
Proof.
  intros Hid Hreq Hanswer. apply String.eqb_neq in Hid.
  unfold DeleteSession, NewRequestWithContext, Do. rewrite Hid.
  cbn [URL deleteRequest] in Hreq. rewrite Hreq.
  fold (deleteRequest c). rewrite Hanswer.
  destruct (negb _); eexists; split; reflexivity.
Qed.

(** X8.  DeleteSession is best effort and safe to repeat.  It hands at
    most one request to the transport, the DELETE of the session the
    client holds, and leaves the client with the same identifier or
    with none; once the identifier is empty a further DeleteSession
    sends nothing, returns nil and leaves the client as it is. *)
Theorem DeleteSession_best_effort (c : WebDriverClient) (w : World) :
  let '(_, c', w') := DeleteSession c w in
  (sessionID c' = sessionID c \/ sessionID c' = EmptyString) /\
  (sent w' = sent w \/ sent w' = (sent w ++ [deleteRequest c])%list) /\
  (sessionID c' = EmptyString ->
   forall w'', let '(err, c'', w''') := DeleteSession c' w'' in
               err = None /\ c'' = c' /\ sent w''' = sent w'' /\ now w''' = now w'').
Proof.
  pose proof (DeleteSession_effect c w) as Heffect.
  destruct (DeleteSession c w) as [[err c'] w'].
  destruct Heffect as (_ & Hid & Hsent).
  split; [exact Hid|]. split; [tauto|].
  intros Hempty w''. rewrite (DeleteSession_without_session c' w'' Hempty).
  repeat split.
Qed.

(** X9.  A session is created and deleted in two requests.  When the
    endpoint answers the creation with status 200 and a session
    identifier, and answers the deletion at all, CreateSession followed
    by DeleteSession returns no error, has sent the POST to the session
    endpoint and then the DELETE of the session just created, and
    leaves the client without a session. *)
Theorem CreateSession_then_DeleteSession (c : WebDriverClient)
    (capabilities granted : list (string * value)) (id : string) (status : Z)
    (body : option value) (w : World) :
  let created := afterRequest (createRequest c capabilities) w in
  let c1 := mkClient (baseURL c) id in
  id <> EmptyString ->
  requestError "POST" (baseURL c ++ "/session") = None ->
  requestError "DELETE" (URL (deleteRequest c1)) = None ->
  answer (roundTrip w (createRequest c capabilities))
    = Ok (mkResponse 200 (Some (VMap [("value", VMap [("sessionId", VString id);
                                                       ("capabilities", VMap granted)])]))) ->
  answer (roundTrip created (deleteRequest c1)) = Ok (mkResponse status body) ->
  let '(r, c1', w1) := CreateSession c capabilities w in
  let '(err, c2, w2) := DeleteSession c1' w1 in
  r = Ok (mkSession id granted) /\
  err = None /\
  sessionID c2 = EmptyString /\
  sent w2 = (sent w ++ [createRequest c capabilities; deleteRequest c1])%list.
Proof.
  intros created c1 Hid Hpost Hdelete Hcreated Hdeleted.
  rewrite CreateSession_run, Hpost. cbv zeta. rewrite Hcreated.
  cbn [StatusCode Body Z.eqb Pos.eqb negb decodeValue into_field].
  change (fieldMatch "value" "value") with true. cbv iota.
  cbn [into_WebDriverSession SessionID Capabilities into_field_runes].
  change (String.eqb (foldNameRunes "sessionId") (foldNameRunes "sessionId")) with true.
  change (String.eqb (foldNameRunes "capabilities") (foldNameRunes "sessionId")) with false.
  change (String.eqb (foldNameRunes "sessionId") (foldNameRunes "capabilities")) with false.
  change (String.eqb (foldNameRunes "capabilities") (foldNameRunes "capabilities")) with true.
  cbv iota. cbn [into_string into_map app SessionID]. cbv beta iota.
  fold created. fold c1.
  destruct (DeleteSession_answered c1 created (mkResponse status body) Hid Hdelete Hdeleted)
    as (w2 & -> & Hsent).
  repeat split. rewrite Hsent. subst created. cbn [afterRequest sent].
  rewrite <- app_assoc. reflexivity.
Qed.

End SessionLife.

Lemma CreateSession_accepts_missing_identifier_witness :
  let net := scriptedNet
               [respond 200 (Some (VMap [("value",
                  VMap [("capabilities", VMap [("browserName", VString "safari")])])]))] [] in
  exists caps,
    CreateSession activeClient [] world0 =
      (Ok (mkSession EmptyString caps), idleClient,
       afterRequest (createRequest activeClient []) world0).
Proof.
  intros net.
  apply (CreateSession_accepts_missing_identifier (net := net) activeClient [] world0
           (mkResponse 200 (Some (VMap [("value",
              VMap [("capabilities", VMap [("browserName", VString "safari")])])])))
           [("capabilities", VMap [("browserName", VString "safari")])]);
    try reflexivity.
  intros k v [[= <- <-]|[]]. split; [discriminate|].
  intros _. right. eexists. reflexivity.
Defined.

Lemma CreateSession_then_DeleteSession_witness :
  let net := scriptedNet
               [respond 200 (Some (VMap [("value",
                  VMap [("sessionId", VString "5C8E"); ("capabilities", VMap [])])]));
                respond 404 None] [] in
  let '(r, c1, w1) := CreateSession idleClient [] world0 in
  let '(err, c2, w2) := DeleteSession c1 w1 in
  r = Ok (mkSession "5C8E" []) /\
  err = None /\
  sessionID c2 = EmptyString /\
  sent w2 = [createRequest idleClient []; deleteRequest activeClient].
Proof.
  intros net.
  apply (CreateSession_then_DeleteSession (net := net) idleClient [] [] "5C8E" 404 None world0);
    try reflexivity.
  discriminate.
Defined.

(** ** Element identifiers *)

(** The identifiers kept from a list of decoded elements are not empty. *)
Lemma nativeElementID_nonempty (elems : list ElementRef) (acc : list string) (id : string) :
  (forall id', In id' acc -> id' <> EmptyString) ->
  In id (fold_left (fun elementIDs elem => elementIDs ++ nativeElementID elem)%list elems acc) ->
  id <> EmptyString.
Proof.
  revert acc. induction elems as [|elem rest IH]; intros acc Hacc; cbn [fold_left].
  - apply Hacc.
  - apply IH. intros id' Hin. apply in_app_or in Hin as [Hin|Hin]; [exact (Hacc id' Hin)|].
    unfold nativeElementID in Hin.
    destruct (String.eqb_spec (ElementID elem) EmptyString) as [_|Hw3c]; cbn [negb] in Hin.
    + destruct (String.eqb_spec (ELEMENT elem) EmptyString) as [_|Hlegacy]; cbn [negb] in Hin.
      * destruct Hin.
      * destruct Hin as [<-|[]]. exact Hlegacy.
    + destruct Hin as [<-|[]]. exact Hw3c.
Qed.

Section Identifiers.
Context {net : Net}.

Lemma findElementNative_nonempty (c : WebDriverClient) (strategy value id : string)
    (w : World) :
  fst (findElementNative c strategy value w) = Ok id -> id <> EmptyString.
Proof.
  unfold findElementNative.
  destruct (String.eqb (sessionID c) EmptyString); [discriminate|].
  destruct (NewRequestWithContext _ _ _) as [req|err]; [|discriminate].
  cbv zeta. destruct (Do _ _) as [[resp|err] w1]; [|discriminate].
  destruct (negb (StatusCode resp =? 200)).
  { destruct (decodeMap _) as [errorBody|]; [|discriminate].
    destruct (lookup errorBody "value") as [[| | | | |detail]|]; try discriminate.
    destruct (lookup detail "message") as [[| | |message| |]|]; discriminate. }
  destruct (decodeValue _ _ _) as [elementResp|err]; [|discriminate].
  destruct (String.eqb_spec (ElementID elementResp) EmptyString) as [_|Hw3c]; cbn [negb].
  - destruct (String.eqb_spec (ELEMENT elementResp) EmptyString) as [_|Hlegacy]; cbn [negb].
    + discriminate.
    + intros [= <-]. exact Hlegacy.
  - intros [= <-]. exact Hw3c.
Qed.

Lemma findAllElementsNative_nonempty (c : WebDriverClient) (strategy value : string)
    (ids : list string) (w : World) :
  fst (findAllElementsNative c strategy value w) = Ok ids ->
  forall id, In id ids -> id <> EmptyString.
Proof.
  unfold findAllElementsNative.
  destruct (String.eqb (sessionID c) EmptyString); [discriminate|].
  destruct (NewRequestWithContext _ _ _) as [req|err]; [|discriminate].
  cbv zeta. destruct (Do _ _) as [[resp|err] w1]; [|discriminate].
  destruct (negb (StatusCode resp =? 200)); [discriminate|].
  destruct (decodeValue _ _ _) as [elems|err]; [|discriminate].
  cbn [fst]. intros [= <-] id Hin.
  apply (nativeElementID_nonempty elems [] id); [intros id' []|exact Hin].
Qed.

(** X10.  A native lookup never yields an empty element identifier.
    For a selector that ParseSelector resolves to a native strategy, the
    identifier FindElement returns is not empty, and neither is any of
    the identifiers FindAllElements returns: an element whose W3C and
    legacy identifiers are both empty is reported as not found by the
    one and skipped by the other. *)
Theorem native_lookup_identifiers (c : WebDriverClient) (selector : string) (w : World) :
  IsNative (ParseSelector selector) = true ->
  (forall id, fst (FindElement c selector w) = Ok id -> id <> EmptyString) /\
  (forall ids, fst (FindAllElements c selector w) = Ok ids ->
               forall id, In id ids -> id <> EmptyString).
Proof.
  intros Hnative. split.
  - intros id. unfold FindElement, FindElementWithStrategy. rewrite Hnative.
    apply findElementNative_nonempty.
  - intros ids. unfold FindAllElements. rewrite Hnative.
    apply findAllElementsNative_nonempty.
Qed.

(** X11.  The locators of All act on the elements found.  For a
    selector of a native strategy, every locator that All returns
    belongs to the same page and selector and is bound to an element
    identifier, so that a later Click on it looks nothing up: what it
    does to the world is what ClickElement does for that identifier. *)
Theorem Locator_All_binds (l : Locator) (c : WebDriverClient) (locators : list Locator)
    (w : World) :
  client (page l) = Some c ->
  IsNative (ParseSelector (selector l)) = true ->
  fst (Locator_All l w) = Ok locators ->
  forall l', In l' locators ->
    page l' = page l /\ selector l' = selector l /\
    locatorElementID l' <> EmptyString /\
    forall w', snd (Locator_Click l' w') = snd (ClickElement c (locatorElementID l') w').
Proof.
  intros Hclient Hnative. unfold Locator_All. rewrite Hclient.
  pose proof (findAllElementsNative_nonempty c (Strategy (ParseSelector (selector l)))
                (Value (ParseSelector (selector l)))) as Hids.
  specialize (fun ids => Hids ids w).
  unfold FindAllElements. rewrite Hnative.
  destruct (findAllElementsNative c _ _ w) as [[ids|err] w1]; [|discriminate].
  cbn [fst]. intros [= <-] l' Hin.
  apply in_map_iff in Hin as (id & <- & Hin). cbn [page selector locatorElementID].
  specialize (Hids ids eq_refl id Hin).
  repeat split; [exact Hids|].
  intros w'. unfold Locator_Click, resolve. cbn [page selector locatorElementID].
  rewrite Hclient. apply String.eqb_neq in Hids. rewrite Hids. cbn [negb].
  destruct (ClickElement c id w') as [[err|] w2]; reflexivity.
Qed.

End Identifiers.

Lemma native_lookup_identifiers_witness :
  let net := scriptedNet
               [respond 200 (Some (VMap [("value", VMap [("ELEMENT", VString "node-7")])]))] [] in
  fst (FindElement activeClient "id=main" world0) = Ok "node-7" /\ "node-7" <> EmptyString.
Proof.
  intros net. split; [reflexivity|].
  apply (proj1 (native_lookup_identifiers (net := net) activeClient "id=main" world0 eq_refl)).
  reflexivity.
Defined.

Lemma Locator_All_binds_witness :
  let net := scriptedNet
               [respond 200 (Some (VMap [("value",
                  VArray [VMap [(w3cKey, VString "node-1")]; VMap [];
                          VMap [("ELEMENT", VString "node-3")]])]))] [] in
  let p := mkPage (Some activeClient) in
  let l := Page_Locator p "tag=li" in
  fst (Locator_All l world0) = Ok [mkLocator p "tag=li" "node-1"; mkLocator p "tag=li" "node-3"] /\
  locatorElementID (mkLocator p "tag=li" "node-3") <> EmptyString.
Proof.
  intros net p l. split; [reflexivity|].
  apply (Locator_All_binds (net := net) l activeClient
           [mkLocator p "tag=li" "node-1"; mkLocator p "tag=li" "node-3"] world0
           eq_refl eq_refl eq_refl (mkLocator p "tag=li" "node-3")).
  right. left. reflexivity.
Defined.

(** ** Screenshots *)

Lemma RGBAModel_idempotent (c : Color) : RGBAModel (RGBAModel c) = RGBAModel c.
Proof. destruct c; cbn [RGBAModel Color_RGBA]; reflexivity. Qed.

(** Filling every row of an image keeps its bounds. *)
Lemma fill_Bounds (g : Z -> Z -> Color) (xs ys : list Z) (dst : Image) :
  Bounds (fold_left (fun dst y => fold_left (fun dst x => Set_ dst x y (g x y)) xs dst) ys dst)
    = Bounds dst.
Proof.
  revert dst. induction ys as [|b ys IH]; intros dst; cbn [fold_left]; [reflexivity|].
  rewrite IH. apply (fill_row_Bounds (fun x => g x b)).
Qed.

(** The rectangle cropImageRect copies: the pixel at (dx, dy) of the
    result is the pixel at (x + dx, y + dy) of the image. *)
Lemma cropImageRect_At (img : Image) (x y width height dx dy : Z) :
  0 <= dx < width -> 0 <= dy < height ->
  At (cropImageRect img x y width height) dx dy = RGBAModel (At img (x + dx) (y + dy)).
Proof.
  intros Hdx Hdy. unfold cropImageRect, for_.
  rewrite (fill_At (fun dx dy => At img (x + dx) (y + dy))).
  rewrite !existsb_range by assumption.
  unfold NewRGBA, inRect. cbn [Bounds MinX MinY MaxX MaxY andb].
  destruct (Z.leb_spec 0 dx), (Z.ltb_spec dx width),
           (Z.leb_spec 0 dy), (Z.ltb_spec dy height); try lia.
  reflexivity.
Qed.

Lemma cropImageRect_Bounds (img : Image) (x y width height : Z) :
  Bounds (cropImageRect img x y width height) = Rect 0 0 width height.
Proof.
  unfold cropImageRect, for_.
  rewrite (fill_Bounds (fun dx dy => At img (x + dx) (y + dy))). reflexivity.
Qed.

Section Screenshots.
Context {net : Net} {codec : Codec}.

(** decodePNG converts the decoded image to RGBA pixel by pixel and
    keeps its bounds. *)
Lemma decodePNG_converts (data : list byte) (src : Image) :
  png_Decode data = Ok src ->
  exists rgba,
    decodePNG data = Ok rgba /\
    Bounds rgba = Bounds src /\
    forall x y, At rgba x y = if inRect (Bounds src) x y then RGBAModel (At src x y)
                              else RGBA 0 0 0 0.
Proof.
  intros Hdecode. unfold decodePNG. rewrite Hdecode. eexists. split; [reflexivity|].
  unfold for_. split.
  - rewrite (fill_Bounds (fun x y => At src x y)). reflexivity.
  - intros x y. rewrite (fill_At (fun x y => At src x y)).
    cbn [NewRGBA Bounds At].
    destruct (inRect (Bounds src) x y) eqn:Hin.
    + unfold inRect in Hin.
      apply andb_prop in Hin as [Hin Hy2]. apply andb_prop in Hin as [Hin Hy1].
      apply andb_prop in Hin as [Hx1 Hx2].
      apply Z.leb_le in Hx1, Hy1. apply Z.ltb_lt in Hx2, Hy2.
      rewrite !existsb_range by lia. reflexivity.
    + rewrite andb_false_r. reflexivity.
Qed.

(** X12.  cropImage keeps the top-left corner.  For a decodable image
    with its origin at (0, 0), as png.Decode produces, and a width and
    height that are not negative: when the request covers the image the
    bytes come back as they were given, without being encoded again;
    otherwise the result is the encoding of an image of the requested
    size limited to the size of the original, whose pixel at (x, y) is
    the pixel of the original at (x, y) converted to RGBA. *)
Theorem cropImage_keeps_top_left (imageData : list byte) (src : Image)
    (width height : Z) (w : World) :
  png_Decode imageData = Ok src ->
  MinX (Bounds src) = 0 -> MinY (Bounds src) = 0 ->
  0 <= width -> 0 <= height ->
  let imgWidth := Dx (Bounds src) in
  let imgHeight := Dy (Bounds src) in
  (imgWidth <= width /\ imgHeight <= height ->
   fst (cropImage imageData width height w) = Ok imageData) /\
  (width < imgWidth \/ height < imgHeight ->
   exists cropped,
     fst (cropImage imageData width height w) = png_Encode cropped /\
     Bounds cropped = Rect 0 0 (Z.min width imgWidth) (Z.min height imgHeight) /\
     forall x y, inRect (Bounds cropped) x y = true ->
                 At cropped x y = RGBAModel (At src x y)).
Proof.
  intros Hdecode HminX HminY Hwidth Hheight imgWidth imgHeight.
  destruct (decodePNG_converts imageData src Hdecode) as (rgba & Hrgba & Hbounds & Hat).
  unfold cropImage. rewrite Hrgba. cbv zeta. rewrite Hbounds.
  fold imgWidth imgHeight. split.
  - intros [Hw Hh].
    destruct (Z.geb_spec width imgWidth); [|lia].
    destruct (Z.geb_spec height imgHeight); [|lia]. reflexivity.
  - intros Hsmaller.
    assert (Hcase : (width >=? imgWidth) && (height >=? imgHeight) = false).
    { destruct (Z.geb_spec width imgWidth), (Z.geb_spec height imgHeight);
        try reflexivity; lia. }
    rewrite Hcase. cbn [fst]. unfold encodePNG.
    assert (Hcw : (if width >? imgWidth then imgWidth else width) = Z.min width imgWidth).
    { rewrite Z.gtb_ltb. destruct (Z.ltb_spec imgWidth width); lia. }
    assert (Hch : (if height >? imgHeight then imgHeight else height) = Z.min height imgHeight).
    { rewrite Z.gtb_ltb. destruct (Z.ltb_spec imgHeight height); lia. }
    rewrite Hcw, Hch. eexists. split; [reflexivity|].
    split; [apply cropImageRect_Bounds|].
    intros x y Hin. rewrite cropImageRect_Bounds in Hin.
    unfold inRect in Hin. cbn [MinX MinY MaxX MaxY] in Hin.
    apply andb_prop in Hin as [Hin Hy2]. apply andb_prop in Hin as [Hin Hy1].
    apply andb_prop in Hin as [Hx1 Hx2].
    apply Z.leb_le in Hx1, Hy1. apply Z.ltb_lt in Hx2, Hy2.
    rewrite cropImageRect_At by lia. rewrite !Z.add_0_l, Hat.
    assert (Hinside : inRect (Bounds src) x y = true).
    { unfold inRect. rewrite HminX, HminY.
      unfold imgWidth, imgHeight, Dx, Dy in Hx2, Hy2.
      rewrite HminX in Hx2. rewrite HminY in Hy2.
      apply andb_true_intro; split; [apply andb_true_intro; split;
        [apply andb_true_intro; split|]|];
        first [apply Z.leb_le | apply Z.ltb_lt]; lia. }
    rewrite Hinside. apply RGBAModel_idempotent.
Qed.





End Screenshots.

Lemma cropImage_keeps_top_left_witness :
  let codec := swatchCodec in
  exists cropped,
    fst (cropImage [x04; x03; x10; x20; x30; xff] 2 5 world0) = png_Encode cropped /\
    Bounds cropped = Rect 0 0 2 3.
Proof.
  intros codec.
  destruct (cropImage_keeps_top_left (codec := codec) [x04; x03; x10; x20; x30; xff]
              (uniformImage 4 3 (NRGBA 16 32 48 255)) 2 5 world0
              eq_refl eq_refl eq_refl ltac:(discriminate) ltac:(discriminate))
    as [_ Hcrop].
  destruct Hcrop as (cropped & Hrun & Hbounds & _); [left; reflexivity|].
  exists cropped. split; [exact Hrun | exact Hbounds].
Defined.


(** ** The diff image *)

(** The colour of a diff pixel is an RGBA colour, so that SetRGBA
    stores what Set would. *)
Lemma diffColor_RGBA (c1 c2 : Color) : RGBAModel (diffColor c1 c2) = diffColor c1 c2.
Proof.
  unfold diffColor.
  destruct (Color_RGBA c1) as [[[r1 g1] b1] a1], (Color_RGBA c2) as [[[r2 g2] b2] a2].
  cbv zeta. destruct (_ || _); reflexivity.
Qed.

Lemma range_shift (lo hi : Z) : map (fun i => i - lo) (range lo hi) = range 0 (hi - lo).
Proof.
  unfold range. rewrite map_map, Z.sub_0_r. apply map_ext. intros k. lia.
Qed.

(** A loop that writes at positions relative to an origin, as a loop
    over the relative positions. *)
Lemma shift_row (g : Z -> Color) (ox y : Z) (xs : list Z) (dst : Image) :
  (forall x, RGBAModel (g x) = g x) ->
  fold_left (fun d x => SetRGBA d (x - ox) y (g x)) xs dst =
  fold_left (fun d x' => Set_ d x' y (g (x' + ox))) (map (fun x => x - ox) xs) dst.
Proof.
  intros Hg. revert dst. induction xs as [|a xs IH]; intros dst; cbn [fold_left map].
  - reflexivity.
  - rewrite IH. f_equal. unfold SetRGBA, Set_. rewrite Z.sub_add, Hg. reflexivity.
Qed.

Lemma shift_rows (g : Z -> Z -> Color) (ox oy : Z) (xs ys : list Z) (dst : Image) :
  (forall x y, RGBAModel (g x y) = g x y) ->
  fold_left (fun d y => fold_left (fun d x => SetRGBA d (x - ox) (y - oy) (g x y)) xs d) ys dst =
  fold_left (fun d y' =>
               fold_left (fun d x' => Set_ d x' y' (g (x' + ox) (y' + oy)))
                         (map (fun x => x - ox) xs) d)
            (map (fun y => y - oy) ys) dst.
Proof.
  intros Hg. revert dst. induction ys as [|b ys IH]; intros dst; cbn [fold_left map].
  - reflexivity.
  - rewrite IH. f_equal.
    rewrite (shift_row (fun x => g x b) ox (b - oy)) by (intros x; apply Hg).
    rewrite Z.sub_add. reflexivity.
Qed.

Lemma inRect_inv (r : Rectangle) (x y : Z) :
  inRect r x y = true -> MinX r <= x < MaxX r /\ MinY r <= y < MaxY r.
Proof.
  unfold inRect. intros Hin.
  apply andb_prop in Hin as [Hin Hy2]. apply andb_prop in Hin as [Hin Hy1].
  apply andb_prop in Hin as [Hx1 Hx2].
  apply Z.leb_le in Hx1, Hy1. apply Z.ltb_lt in Hx2, Hy2. lia.
Qed.

Lemma inRect_intro (r : Rectangle) (x y : Z) :
  MinX r <= x < MaxX r -> MinY r <= y < MaxY r -> inRect r x y = true.
Proof.
  intros Hx Hy. unfold inRect.
  destruct (Z.leb_spec (MinX r) x), (Z.ltb_spec x (MaxX r)),
           (Z.leb_spec (MinY r) y), (Z.ltb_spec y (MaxY r));
    first [reflexivity | lia].
Qed.

(** The diff image of a matched pair: its size, and its pixel for each
    point of the first image. *)
Lemma diffImage_At (img1 img2 : Image) :
  let '(first, second) := matchDimensions img1 img2 in
  let b := Bounds first in
  Bounds (diffImage img1 img2) = Rect 0 0 (Dx b) (Dy b) /\
  forall x y, inRect b x y = true ->
    At (diffImage img1 img2) (x - MinX b) (y - MinY b)
      = diffColor (At first x y) (At second x y).
Proof.
  unfold diffImage. destruct (matchDimensions img1 img2) as [first second]. cbv zeta.
  unfold for_.
  rewrite (shift_rows (fun x y => diffColor (At first x y) (At second x y)))
    by (intros x y; apply diffColor_RGBA).
  rewrite !range_shift. split.
  - rewrite (fill_Bounds
               (fun x' y' => diffColor (At first (x' + MinX (Bounds first))
                                           (y' + MinY (Bounds first)))
                                       (At second (x' + MinX (Bounds first))
                                           (y' + MinY (Bounds first))))).
    reflexivity.
  - intros x y Hin. apply inRect_inv in Hin as [Hx Hy].
    rewrite (fill_At
               (fun x' y' => diffColor (At first (x' + MinX (Bounds first))
                                           (y' + MinY (Bounds first)))
                                       (At second (x' + MinX (Bounds first))
                                           (y' + MinY (Bounds first))))).
    rewrite !existsb_range by lia.
    cbn [NewRGBA Bounds].
    rewrite inRect_intro by (cbn [MinX MaxX MinY MaxY]; unfold Dx, Dy; lia).
    cbn [andb]. rewrite !Z.sub_add. apply diffColor_RGBA.
Qed.



(** A pixel compared with itself is never marked. *)
Lemma diffColor_same (c : Color) : diffColor c c <> markerRed.
Proof.
  unfold diffColor, markerRed.
  destruct (Color_RGBA c) as [[[r g] b] a]. cbv zeta.
  rewrite !Z.sub_diag. change (abs 0 >? 10) with false. cbn [orb].
  intros [= Hred Hgreen _]. rewrite Hred in Hgreen. discriminate.
Qed.

Lemma matchDimensions_same (img : Image) : matchDimensions img img = (img, img).
Proof. unfold matchDimensions. rewrite !Z.eqb_refl. reflexivity. Qed.

Section DiffProperties.
Context {codec : Codec} {fs : FileSystem}.

(** The bytes CreateDiffImage returns encode the diff image. *)
Lemma CreateDiffImage_encodes (img1Bytes img2Bytes : list byte) (filePath : string)
    (files : Files) (img1 img2 : Image) (bytes : list byte) :
  png_Decode img1Bytes = Ok img1 ->
  png_Decode img2Bytes = Ok img2 ->
  fst (CreateDiffImage img1Bytes img2Bytes filePath files) = Ok bytes ->
  png_Encode (diffImage img1 img2) = Ok bytes.
Proof.
  intros Hdec1 Hdec2. unfold CreateDiffImage. rewrite Hdec1, Hdec2.
  destruct (png_Encode (diffImage img1 img2)) as [diffBytes|err]; [|discriminate].
  destruct (negb _); [destruct (writeFileError _ _ _); [discriminate|]|];
    intros [= <-]; reflexivity.
Qed.


(** X15.  An image compared with itself has no marked pixel: the diff
    image that CreateDiffImage encodes for twice the same decodable
    image has the size of the image and no pure red pixel inside. *)
Theorem CreateDiffImage_same_image (imgBytes : list byte) (filePath : string)
    (files : Files) (img : Image) :
  png_Decode imgBytes = Ok img ->
  exists diff,
    (forall bytes, fst (CreateDiffImage imgBytes imgBytes filePath files) = Ok bytes ->
                   png_Encode diff = Ok bytes) /\
    Bounds diff = Rect 0 0 (Dx (Bounds img)) (Dy (Bounds img)) /\
    forall x y, inRect (Bounds diff) x y = true -> At diff x y <> markerRed.
Proof.
  intros Hdec.
  pose proof (diffImage_At img img) as Hdiff.
  rewrite matchDimensions_same in Hdiff. cbv zeta in Hdiff.
  destruct Hdiff as [Hbounds Hat].
  exists (diffImage img img). split; [|split].
  - intros bytes. apply CreateDiffImage_encodes; assumption.
  - exact Hbounds.
  - intros x y Hin. rewrite Hbounds in Hin. apply inRect_inv in Hin as [Hx Hy].
    cbn [MinX MaxX MinY MaxY] in Hx, Hy. unfold Dx in Hx. unfold Dy in Hy.
    replace x with (x + MinX (Bounds img) - MinX (Bounds img)) by lia.
    replace y with (y + MinY (Bounds img) - MinY (Bounds img)) by lia.
    rewrite Hat by (apply inRect_intro; lia).
    apply diffColor_same.
Qed.


End DiffProperties.


Lemma CreateDiffImage_same_image_witness :
  let codec := cornerCodec in
  let fs := scratchDisk in
  exists diff,
    png_Encode diff = Ok [x02; x02; x20; x20; x20; xff] /\ At diff 0 0 <> markerRed.
Proof.
  intros codec fs.
  destruct (CreateDiffImage_same_image (codec := codec) (fs := fs)
              [x02; x02; x10; x20; x30; xff] "diff.png" []
              (uniformImage 2 2 (NRGBA 16 32 48 255)) eq_refl)
    as (diff & Hbytes & Hbounds & Hpixels).
  exists diff. split; [apply Hbytes; reflexivity|].
  apply Hpixels. rewrite Hbounds. reflexivity.
Defined.

(** ** Counting pixels *)

(** A loop whose every pass adds between 0 and [k] adds at most [k] per
    pass; one whose every pass adds [k] adds [k] per pass. *)
Lemma for_adds_between (lo hi k : Z) (body : Z -> Z -> Z) (s : Z) :
  0 <= k ->
  (forall i t, lo <= i < hi -> t <= body i t <= t + k) ->
  s <= for_ lo hi body s <= s + k * Z.max 0 (hi - lo).
Proof.
  unfold for_. intros Hk Hbody.
  assert (Hin : forall i, In i (range lo hi) -> lo <= i < hi) by (intros i; apply range_In).
  replace (Z.max 0 (hi - lo)) with (Z.of_nat (List.length (range lo hi)))
    by (rewrite range_length; lia).
  revert s. induction (range lo hi) as [|i l IH]; intros s; cbn [fold_left List.length].
  - lia.
  - specialize (IH (fun j Hj => Hin j (or_intror Hj)) (body i s)).
    specialize (Hbody i s (Hin i (or_introl eq_refl))).
    rewrite Nat2Z.inj_succ. nia.
Qed.

Lemma for_adds_each (lo hi k : Z) (body : Z -> Z -> Z) (s : Z) :
  (forall i t, lo <= i < hi -> body i t = t + k) ->
  for_ lo hi body s = s + k * Z.max 0 (hi - lo).
Proof.
  unfold for_. intros Hbody.
  assert (Hin : forall i, In i (range lo hi) -> lo <= i < hi) by (intros i; apply range_In).
  replace (Z.max 0 (hi - lo)) with (Z.of_nat (List.length (range lo hi)))
    by (rewrite range_length; lia).
  revert s. induction (range lo hi) as [|i l IH]; intros s; cbn [fold_left List.length].
  - lia.
  - rewrite (IH (fun j Hj => Hin j (or_intror Hj))).
    rewrite (Hbody i s (Hin i (or_introl eq_refl))).
    rewrite Nat2Z.inj_succ. lia.
Qed.

(** The count of a matched pair lies between 0 and the number of pixels
    of the first image. *)
Lemma differentPixels_range (img1 img2 : Image) (threshold : Z) :
  let '(first, _) := matchDimensions img1 img2 in
  0 <= differentPixels img1 img2 threshold
    <= Z.max 0 (Dx (Bounds first)) * Z.max 0 (Dy (Bounds first)).
Proof.
  unfold differentPixels. destruct (matchDimensions img1 img2) as [first second]. cbv zeta.
  pose proof (for_adds_between (MinY (Bounds first)) (MaxY (Bounds first))
                (Z.max 0 (Dx (Bounds first)))
                (fun y count =>
                   for_ (MinX (Bounds first)) (MaxX (Bounds first))
                        (fun x count =>
                           if pixelDiffers (At first x y) (At second x y) threshold
                           then count + 1 else count) count) 0) as Hrows.
  unfold Dx, Dy in *. apply Hrows; [lia|].
  intros y t _.
  pose proof (for_adds_between (MinX (Bounds first)) (MaxX (Bounds first)) 1
                (fun x count =>
                   if pixelDiffers (At first x y) (At second x y) threshold
                   then count + 1 else count) t) as Hrow.
  rewrite Z.mul_1_l in Hrow. apply Hrow; [lia|].
  intros x t' _. destruct (pixelDiffers _ _ _); lia.
Qed.

(** The size of the first image of a matched pair. *)
Lemma matchDimensions_size (img1 img2 : Image) :
  let '(first, _) := matchDimensions img1 img2 in
  let b1 := Bounds img1 in
  let b2 := Bounds img2 in
  (Dx b1 > Dx b2 \/ Dy b1 > Dy b2 ->
   Dx (Bounds first) = Dx b2 /\ Dy (Bounds first) = Dy b2) /\
  (Dx b1 <= Dx b2 -> Dy b1 <= Dy b2 ->
   Dx (Bounds first) = Dx b1 /\ Dy (Bounds first) = Dy b1).
Proof.
  unfold matchDimensions.
  destruct (Z.eqb_spec (Dx (Bounds img1)) (Dx (Bounds img2))) as [Hdx|Hdx],
           (Z.eqb_spec (Dy (Bounds img1)) (Dy (Bounds img2))) as [Hdy|Hdy];
    cbn [negb orb].
  1: { cbv zeta. split; intros; [lia | split; reflexivity]. }
  all: rewrite !Z.gtb_ltb;
    destruct (Z.ltb_spec (Dx (Bounds img2)) (Dx (Bounds img1))),
             (Z.ltb_spec (Dy (Bounds img2)) (Dy (Bounds img1)));
    cbn [orb]; cbv zeta; rewrite ?scaleImage_Bounds;
    (split; [intros; try lia; unfold Dx, Dy; cbn [MinX MaxX MinY MaxY]; lia
            |intros; try lia; split; reflexivity]).
Qed.

(** A pixel compared with itself is counted exactly when the threshold,
    taken as an int32, is negative. *)
Lemma pixelDiffers_same (c : Color) (threshold : Z) :
  pixelDiffers c c threshold = (int32 threshold <? 0).
Proof.
  unfold pixelDiffers. destruct (Color_RGBA c) as [[[r g] b] a].
  rewrite !Z.sub_diag. change (abs32 (int32 0)) with 0.
  rewrite !Z.gtb_ltb. destruct (int32 threshold <? 0); reflexivity.
Qed.

Lemma differentPixels_same (img : Image) (threshold : Z) :
  differentPixels img img threshold =
    if int32 threshold <? 0
    then Z.max 0 (Dx (Bounds img)) * Z.max 0 (Dy (Bounds img))
    else 0.
Proof.
  unfold differentPixels. rewrite matchDimensions_same. cbv zeta.
  destruct (int32 threshold <? 0) eqn:Hneg.
  - rewrite (for_adds_each _ _ (Z.max 0 (Dx (Bounds img)))).
    + unfold Dx, Dy. lia.
    + intros y t _. rewrite (for_adds_each _ _ 1).
      * unfold Dx. lia.
      * intros x t' _. rewrite pixelDiffers_same, Hneg. reflexivity.
  - rewrite (for_adds_each _ _ 0); [lia|].
    intros y t _. rewrite (for_adds_each _ _ 0); [lia|].
    intros x t' _. rewrite pixelDiffers_same, Hneg. lia.
Qed.

Section CountProperties.
Context {codec : Codec}.

(** X17.  PixelDifferenceCount never counts more pixels than it
    compares.  For two decodable images with at least one pixel each it
    returns a count and no error; the count is not negative and at most
    the number of pixels of the second image when the first is wider or
    taller than the second, and of the first image otherwise. *)
Theorem PixelDifferenceCount_range (img1Bytes img2Bytes : list byte) (threshold : Z)
    (img1 img2 : Image) :
  png_Decode img1Bytes = Ok img1 ->
  png_Decode img2Bytes = Ok img2 ->
  nonEmpty img1 ->
  nonEmpty img2 ->
  let b1 := Bounds img1 in
  let b2 := Bounds img2 in
  exists count,
    PixelDifferenceCount img1Bytes img2Bytes threshold = Ok count /\
    0 <= count /\
    (Dx b1 > Dx b2 \/ Dy b1 > Dy b2 -> count <= Dx b2 * Dy b2) /\
    (Dx b1 <= Dx b2 -> Dy b1 <= Dy b2 -> count <= Dx b1 * Dy b1).
Proof.
  intros Hdec1 Hdec2 [Hw1 Hh1] [Hw2 Hh2] b1 b2.
  unfold PixelDifferenceCount. rewrite Hdec1, Hdec2.
  exists (differentPixels img1 img2 threshold). split; [reflexivity|].
  pose proof (differentPixels_range img1 img2 threshold) as Hrange.
  pose proof (matchDimensions_size img1 img2) as Hsize.
  destruct (matchDimensions img1 img2) as [first second].
  fold b1 b2 in Hsize, Hw1, Hh1, Hw2, Hh2. destruct Hsize as [Hbigger Hsmaller].
  split; [lia|]. split.
  - intros Hcase. destruct (Hbigger Hcase) as [Hdx Hdy].
    rewrite Hdx, Hdy, !Z.max_r in Hrange by lia. lia.
  - intros Hdx Hdy. destruct (Hsmaller Hdx Hdy) as [Hdx' Hdy'].
    rewrite Hdx', Hdy', !Z.max_r in Hrange by lia. lia.
Qed.

(** X18.  An image compared with itself.  For a decodable image with at
    least one pixel, PixelDifferenceCount of the image with itself is 0
    for every threshold below 2^31, and is the number of pixels of the
    image for a threshold from 2^31 up to the largest uint32: the
    conversion of the threshold to int32 makes it negative, and every
    pixel counts as different. *)
Theorem PixelDifferenceCount_same_image (imgBytes : list byte) (threshold : Z) (img : Image) :
  png_Decode imgBytes = Ok img ->
  nonEmpty img ->
  (0 <= threshold < 2147483648 ->
   PixelDifferenceCount imgBytes imgBytes threshold = Ok 0) /\
  (2147483648 <= threshold < 4294967296 ->
   PixelDifferenceCount imgBytes imgBytes threshold
     = Ok (Dx (Bounds img) * Dy (Bounds img))).
Proof.
  intros Hdec [Hw Hh]. unfold PixelDifferenceCount. rewrite Hdec.
  rewrite differentPixels_same. split; intros Hthreshold.
  - rewrite int32_small by lia. destruct (Z.ltb_spec threshold 0); [lia|]. reflexivity.
  - assert (Hwrap : int32 threshold = threshold - 4294967296).
    { unfold int32.
      replace (threshold + 2147483648)
        with (threshold - 2147483648 + 1 * 4294967296) by lia.
      rewrite Z.mod_add by lia. rewrite Z.mod_small by lia. lia. }
    rewrite Hwrap. destruct (Z.ltb_spec (threshold - 4294967296) 0); [|lia].
    f_equal. lia.
Qed.

End CountProperties.

Lemma PixelDifferenceCount_range_witness :
  exists count,
    PixelDifferenceCount (codec := swatchCodec)
                         [x03; x02; x00; x00; x00; xff] [x02; x05; xff; xff; xff; xff] 0
      = Ok count /\
    0 <= count <= 10.
Proof.
  destruct (PixelDifferenceCount_range (codec := swatchCodec)
              [x03; x02; x00; x00; x00; xff] [x02; x05; xff; xff; xff; xff] 0
              (uniformImage 3 2 (NRGBA 0 0 0 255)) (uniformImage 2 5 (NRGBA 255 255 255 255))
              eq_refl eq_refl (conj eq_refl eq_refl) (conj eq_refl eq_refl))
    as (count & Hrun & Hlow & Hhigh & _).
  exists count. split; [exact Hrun|]. split; [exact Hlow|].
  apply Hhigh. left. reflexivity.
Defined.

Lemma PixelDifferenceCount_same_image_witness :
  PixelDifferenceCount (codec := swatchCodec)
                       [x03; x02; x10; x20; x30; xff] [x03; x02; x10; x20; x30; xff]
                       4294967295
    = Ok 6.
Proof.
  apply (proj2 (PixelDifferenceCount_same_image (codec := swatchCodec)
                  [x03; x02; x10; x20; x30; xff] 4294967295
                  (uniformImage 3 2 (NRGBA 16 32 48 255))
                  eq_refl (conj eq_refl eq_refl))).
  split; [discriminate | reflexivity].
Defined.

(** ** Scaling *)




(** ** Selectors, continued *)

(** X20.  ParseSelector classifies every selector consistently.  The
    native flag is set exactly for the seven strategies sent to the
    element endpoints and cleared exactly for the five strategies run as
    scripts, so that a custom lookup never reaches the CSS fallback of
    the script generators; and the value is always a suffix of the
    selector. *)
Theorem ParseSelector_strategy_kinds (selector : string) :
  let parsed := ParseSelector selector in
  (IsNative parsed = true <->
   In (Strategy parsed)
      [StrategyCSSSelector; StrategyXPath; StrategyLinkText; StrategyPartialLinkText;
       StrategyID; StrategyClassName; StrategyTagName]) /\
  (IsNative parsed = false <->
   In (Strategy parsed)
      [StrategyText; StrategyDataTestID; StrategyAriaLabel; StrategyRole;
       StrategyVisibleText]) /\
  exists prefix, selector = prefix ++ Value parsed.
Proof.
  cbv zeta. unfold ParseSelector, TrimPrefix.
  repeat match goal with
         | |- context [HasPrefix selector ?p] =>
             let H := fresh "Hprefix" in
             destruct (HasPrefix selector p) eqn:H
         end;
    cbn [orb Strategy Value IsNative In];
    (split; [|split]);
    try (split; [intros _; cbv; tauto | reflexivity || (intros H; cbv in H; exfalso;
           repeat match type of H with
                  | _ \/ _ => destruct H as [H|H]
                  end; (discriminate H || exact H))]);
    try (split; [discriminate | intros H; cbv in H; exfalso;
           repeat match type of H with
                  | _ \/ _ => destruct H as [H|H]
                  end; (discriminate H || exact H)]);
    try (exists EmptyString; reflexivity);
    match goal with
    | Hp : HasPrefix selector ?p = true |- exists prefix, selector = prefix ++ drop _ selector =>
        exists p; apply (HasPrefix_inv selector p Hp)
    end.
Qed.

(** The selector script of a native strategy is the CSS fallback. *)
Lemma findElementScript_fallback (prefix value : string) :
  In prefix ["id="; "class="; "tag="; "link="; "partial-link="] ->
  findElementScript (ParseSelector (prefix ++ value))
    = Sprintf "(%s)" [generateSelectorScript StrategyCSSSelector value].
Proof.
  intros [<-|[<-|[<-|[<-|[<-|[]]]]]]; destruct value; reflexivity.
Qed.

(** X21.  The wait script forgets the strategy of a native prefix.  For
    the prefixes id=, class=, tag=, link= and partial-link= the element
    expression of generateWaitScript is the CSS fallback script of
    generateSelectorScript applied to the value, in parentheses: the
    value is queried as a CSS selector whatever the prefix, so that the
    wait scripts of the five prefixes with the same value and state are
    the same script. *)
Theorem generateWaitScript_forgets_strategy (prefix value state : string) :
  In prefix ["id="; "class="; "tag="; "link="; "partial-link="] ->
  findElementScript (ParseSelector (prefix ++ value))
    = Sprintf "(%s)" [generateSelectorScript StrategyCSSSelector value] /\
  generateWaitScript (prefix ++ value) state = generateWaitScript ("id=" ++ value) state.
Proof.
  intros Hprefix.
  pose proof (findElementScript_fallback prefix value Hprefix) as Hscript.
  pose proof (findElementScript_fallback "id=" value (or_introl eq_refl)) as Hid.
  split; [exact Hscript|].
  unfold generateWaitScript. cbv zeta. rewrite Hscript, Hid. reflexivity.
Qed.

Lemma generateWaitScript_forgets_strategy_witness :
  generateWaitScript "class=main" "attached" = generateWaitScript "id=main" "attached".
Proof.
  apply (proj2 (generateWaitScript_forgets_strategy "class=" "main" "attached"
                  (or_intror (or_introl eq_refl)))).
Defined.

(** ** Regular expressions *)

Lemma substring_prefix (p rest : string) : substring 0 (String.length p) (p ++ rest) = p.
Proof.
  induction p as [|c p IH]; cbn [String.length append substring].
  - destruct rest; reflexivity.
  - rewrite IH. reflexivity.
Qed.

Lemma length_slash (p : string) : String.length (p ++ "/") = S (String.length p).
Proof. induction p as [|c p IH]; cbn [String.length append]; [reflexivity | rewrite IH; reflexivity]. Qed.

Lemma HasSuffix_slash (p : string) : HasSuffix (p ++ "/") "/" = true.
Proof.
  unfold HasSuffix. rewrite length_slash. cbn [String.length Nat.leb Nat.sub andb].
  rewrite Nat.sub_0_r, drop_app. reflexivity.
Qed.

Lemma drop_all_but_one (s : string) :
  drop (String.length s - 1) s = "/" -> exists p, s = p ++ "/".
Proof.
  induction s as [|c s IH]; cbn [String.length Nat.sub drop].
  - discriminate.
  - rewrite Nat.sub_0_r. destruct s as [|d s].
    + cbn [String.length drop]. intros [= ->]. exists EmptyString. reflexivity.
    + cbn [String.length drop]. intros Hdrop.
      cbn [String.length Nat.sub] in IH. rewrite Nat.sub_0_r in IH.
      destruct (IH Hdrop) as [p Hp]. exists (String c p). cbn [append]. rewrite <- Hp.
      reflexivity.
Qed.

Section RegexProperties.
Context {regexps : Regexps}.

(** X22.  Patterns in slashes.  IsRegex accepts exactly the strings
    that consist of a pattern between two slashes, the empty pattern
    included and the single slash excluded; ParseRegex compiles the
    pattern between the slashes, and refuses every other string before
    the regexp package is called. *)
Theorem ParseRegex_between_slashes (s : string) :
  (IsRegex s = true <-> exists pattern, s = "/" ++ pattern ++ "/") /\
  (forall pattern, s = "/" ++ pattern ++ "/" -> ParseRegex s = regexp_Compile pattern) /\
  (IsRegex s = false -> ParseRegex s = Err (Errorf "not a regex pattern" [])).
Proof.
  assert (Haccepts : forall pattern, IsRegex ("/" ++ pattern ++ "/") = true).
  { intros pattern. unfold IsRegex.
    change ("/" ++ pattern ++ "/") with (String "/"%char (pattern ++ "/")).
    cbn [String.length Nat.leb]. rewrite length_slash. cbn [Nat.leb andb].
    apply andb_true_intro. split.
    - unfold HasPrefix. cbn. destruct (pattern ++ "/"); reflexivity.
    - apply (HasSuffix_slash (String "/"%char pattern)). }
  split; [split|split].
  - unfold IsRegex. intros Hregex.
    apply andb_prop in Hregex as [Hregex Hsuffix].
    apply andb_prop in Hregex as [Hlength Hprefix].
    unfold HasSuffix in Hsuffix. apply andb_prop in Hsuffix as [_ Hdrop].
    apply String.eqb_eq in Hdrop. change (String.length "/") with 1%nat in Hdrop.
    destruct (drop_all_but_one s Hdrop) as [p ->].
    destruct p as [|c p]; [discriminate|].
    apply HasPrefix_inv in Hprefix. cbn [append String.length drop] in Hprefix.
    injection Hprefix as ->. exists p. reflexivity.
  - intros [pattern ->]. apply Haccepts.
  - intros pattern ->. unfold ParseRegex. rewrite Haccepts. cbn [negb].
    change ("/" ++ pattern ++ "/") with (String "/"%char (pattern ++ "/")).
    unfold slice. cbn [String.length]. rewrite length_slash.
    cbn [Nat.sub substring]. rewrite Nat.sub_0_r, substring_prefix. reflexivity.
  - intros Hnot. unfold ParseRegex. rewrite Hnot. reflexivity.
Qed.

End RegexProperties.

(** ** The order of the images *)

(** Two loops whose passes agree up to equality of rationals end in
    equal rationals. *)
Lemma for_Qeq (lo hi : Z) (body1 body2 : Z -> Q -> Q) (s1 s2 : Q) :
  (s1 == s2)%Q ->
  (forall i t1 t2, lo <= i < hi -> (t1 == t2)%Q -> (body1 i t1 == body2 i t2)%Q) ->
  (for_ lo hi body1 s1 == for_ lo hi body2 s2)%Q.
Proof.
  unfold for_. intros Hs Hbody.
  assert (Hin : forall i, In i (range lo hi) -> lo <= i < hi) by (intros i; apply range_In).
  revert s1 s2 Hs. induction (range lo hi) as [|i l IH]; intros s1 s2 Hs; cbn [fold_left].
  - exact Hs.
  - apply IH.
    + intros j Hj. apply Hin. right. exact Hj.
    + apply Hbody; [apply Hin; left; reflexivity | exact Hs].
Qed.

Lemma pixelError_symmetric (c1 c2 : Color) : (pixelError c1 c2 == pixelError c2 c1)%Q.
Proof.
  unfold pixelError.
  destruct (Color_RGBA c1) as [[[r1 g1] b1] a1], (Color_RGBA c2) as [[[r2 g2] b2] a2].
  cbv zeta. ring.
Qed.

Lemma totalError_symmetric (img1 img2 : Image) :
  Bounds img1 = Bounds img2 -> (totalError img1 img2 == totalError img2 img1)%Q.
Proof.
  intros Hbounds. unfold totalError. rewrite <- Hbounds. cbv zeta.
  apply for_Qeq; [reflexivity|].
  intros y t1 t2 _ Ht. apply for_Qeq; [exact Ht|].
  intros x u1 u2 _ Hu. rewrite Hu, pixelError_symmetric. reflexivity.
Qed.

Section OrderProperties.
Context {codec : Codec}.

(** X23.  For images of the same bounds the order of the arguments of
    CompareImages does not matter: both calls return a score, and the
    two scores are equal. *)
Theorem CompareImages_symmetric (img1Bytes img2Bytes : list byte) (img1 img2 : Image) :
  png_Decode img1Bytes = Ok img1 ->
  png_Decode img2Bytes = Ok img2 ->
  Bounds img1 = Bounds img2 ->
  exists score1 score2,
    CompareImages img1Bytes img2Bytes = Ok score1 /\
    CompareImages img2Bytes img1Bytes = Ok score2 /\
    (score1 == score2)%Q.
Proof.
  intros Hdec1 Hdec2 Hbounds. unfold CompareImages. rewrite Hdec1, Hdec2.
  exists (similarity img1 img2), (similarity img2 img1).
  split; [reflexivity|]. split; [reflexivity|].
  unfold similarity, matchDimensions. rewrite <- Hbounds, !Z.eqb_refl.
  cbn [negb orb]. cbv zeta. rewrite <- Hbounds.
  rewrite (totalError_symmetric img1 img2 Hbounds). reflexivity.
Qed.

End OrderProperties.

Lemma CompareImages_symmetric_witness :
  exists score1 score2,
    CompareImages (codec := swatchCodec)
                  [x02; x02; x10; x20; x30; xff] [x02; x02; x90; x20; x30; xff] = Ok score1 /\
    CompareImages (codec := swatchCodec)
                  [x02; x02; x90; x20; x30; xff] [x02; x02; x10; x20; x30; xff] = Ok score2 /\
    (score1 == score2)%Q.
Proof.
  apply (CompareImages_symmetric (codec := swatchCodec)
           [x02; x02; x10; x20; x30; xff] [x02; x02; x90; x20; x30; xff]
           (uniformImage 2 2 (NRGBA 16 32 48 255)) (uniformImage 2 2 (NRGBA 144 32 48 255))
           eq_refl eq_refl eq_refl).
Defined.

(** ** Clicking through a page and through a locator *)

Section CallerProperties.
Context {net : Net}.

(** X24.  Click and Fill on a page act as Click and Type on a fresh
    locator of the page.  For every page, selector and world the two
    leave the same world behind (the same requests in the same order,
    the same log and clock), and one succeeds exactly when the other
    does; only the wording of the errors differs, as for a lookup that
    fails. *)
Theorem Page_actions_as_Locator_actions (p : Page) (sel text : string) (w : World) :
  let direct := Page_Click p sel w in
  let located := Locator_Click (Page_Locator p sel) w in
  let filled := Page_Fill p sel text w in
  let typed := Locator_Type (Page_Locator p sel) text None w in
  snd direct = snd located /\
  (fst direct = None <-> fst located = None) /\
  snd filled = snd typed /\
  (fst filled = None <-> fst typed = None) /\
  (forall err, FindElement_fails p sel w err ->
     fst direct = Some (Errorf "failed to find element: %w" [OErr err]) /\
     fst located = Some (Errorf "failed to find element with selector '%s': %w"
                                [OStr sel; OErr err])).
Proof.
  cbv zeta.
  unfold Page_Click, Locator_Click, Page_Fill, Locator_Type, Page_Locator, resolve,
    FindElement_fails.
  cbn [page selector locatorElementID String.eqb negb].
  destruct (client p) as [c|].
  2: { split; [reflexivity|]. split; [split; discriminate|].
       split; [reflexivity|]. split; [split; discriminate|].
       intros err (c' & Hnone & _). discriminate. }
  destruct (FindElement c sel w) as [[elementID|err] w1] eqn:Hfind.
  - assert (Hfound : forall err',
              ~ (exists c', Some c = Some c' /\ fst (FindElement c' sel w) = Err err')).
    { intros err' (c' & [= <-] & Hfails). rewrite Hfind in Hfails. discriminate. }
    split; [reflexivity|]. split; [reflexivity|].
    destruct (SendKeys c elementID text w1) as [[err|] w2]; cbn [fst snd].
    + split; [reflexivity|]. split; [split; discriminate|].
      intros err' Hfails. exfalso. exact (Hfound err' Hfails).
    + split; [reflexivity|]. split; [split; reflexivity|].
      intros err' Hfails. exfalso. exact (Hfound err' Hfails).
  - cbn [fst snd]. split; [reflexivity|]. split; [split; discriminate|].
    split; [reflexivity|]. split; [split; discriminate|].
    intros err' (c' & [= <-] & Hfails). rewrite Hfind in Hfails.
    cbn [fst] in Hfails. injection Hfails as <-. split; reflexivity.
Qed.

(** X25.  What the binding of a locator changes.  A locator bound to an
    element, as All returns them, types into that element and reads its
    text without looking anything up: Type does to the world what
    SendKeys does for the identifier, TextContent what the execution of
    its script on the element reference does.  Count and WaitFor do not
    use the binding: they give what the unbound locator of the same
    page and selector gives. *)
Theorem Locator_binding (l : Locator) (c : WebDriverClient) (text : string)
    (options : option (list (string * value))) (schedule : list Event) (w : World) :
  client (page l) = Some c ->
  locatorElementID l <> EmptyString ->
  let id := locatorElementID l in
  let unbound := Page_Locator (page l) (selector l) in
  snd (Locator_Type l text options w) = snd (SendKeys c id text w) /\
  (fst (Locator_Type l text options w) = None <-> fst (SendKeys c id text w) = None) /\
  snd (Locator_TextContent l w)
    = snd (ExecuteScript c textContentScript (Some [VMap [(w3cKey, VString id)]]) w) /\
  Locator_Count l w = Locator_Count unbound w /\
  Locator_WaitFor l options schedule w = Locator_WaitFor unbound options schedule w.
Proof.
  intros Hclient Hbound id unbound. apply String.eqb_neq in Hbound.
  unfold Locator_Type, Locator_TextContent, Locator_Count, Locator_WaitFor, resolve.
  subst unbound. unfold Page_Locator. cbn [page selector locatorElementID].
  rewrite Hclient, Hbound. cbn [negb]. fold id.
  split; [|split; [|split; [|split]]].
  - destruct (SendKeys c id text w) as [[err|] w1]; reflexivity.
  - destruct (SendKeys c id text w) as [[err|] w1]; cbn [fst]; split;
      first [discriminate | reflexivity].
  - destruct (ExecuteScript c textContentScript _ w) as [[result|err] w1]; reflexivity.
  - reflexivity.
  - reflexivity.
Qed.

End CallerProperties.


Lemma Locator_binding_witness :
  let net := scriptedNet [respond 200 None] [] in
  let l := mkLocator (mkPage (Some activeClient)) "tag=input" "node-4" in
  snd (Locator_Type l "hello" None world0) = snd (SendKeys activeClient "node-4" "hello" world0).
Proof.
  intros net l.
  apply (Locator_binding (net := net) l activeClient "hello" None [] world0 eq_refl).
  discriminate.
Defined.
(** ** The requests of a navigation *)

Section NavigationRequests.
Context {net : Net}.



End NavigationRequests.


